(** * terraform-provider-azurex: subscription tags and tag inheritance

    A shallow embedding of the provider's [Configure], of the hand-written
    tag-inheritance settings client and of the [subscription_tags] resource
    lifecycle, together with the properties the specification states about
    them.

    Everything the Go code obtains from outside the repository (the process
    environment, the file system, the Azure identity and SDK libraries, the
    HTTP pipeline, the plugin framework's decoders) is a field of a record of
    functions that the embedded code receives as an argument, and the
    theorems quantify over those records.  Each handler runs against the
    response it fills in and leaves a trace of the calls it made. *)

From Stdlib Require Import String List Bool.
From stdpp Require Import base option strings list gmap fin_maps.

Import ListNotations.
Local Open Scope string_scope.

(** ** Go values shared by the three source files *)

(** A Go [error], and the text of a diagnostic.  [fmt.Sprintf] and
    [fmt.Errorf] are kept as the format string applied to its arguments, so
    no formatting verb is interpreted here. *)
Inductive Msg : Type :=
| Lit (s : string)
| Sprintf1 (format : string) (a : Msg)
| Sprintf2 (format : string) (a b : Msg).

Abbreviation error := Msg (only parsing).

(** Go's [==] on two such texts: they are the same when they were built
    alike. *)
Fixpoint Msg_eqb (a b : Msg) : bool :=
  match a, b with
  | Lit s, Lit t => String.eqb s t
  | Sprintf1 f x, Sprintf1 g y => String.eqb f g && Msg_eqb x y
  | Sprintf2 f x1 x2, Sprintf2 g y1 y2 =>
      String.eqb f g && Msg_eqb x1 y1 && Msg_eqb x2 y2
  | _, _ => false
  end.

(** The result of a Go call that returns [(T, error)]. *)
Inductive result (A : Type) : Type :=
| Ok (a : A)
| Err (e : error).
Arguments Ok {A} a.
Arguments Err {A} e.

(** ** terraform-plugin-framework values *)
Module types.

(** [types.String]: null, unknown or a known value. *)
Inductive String : Type :=
| StringNull
| StringUnknown
| StringValue (s : string).

(** [ValueString] is the empty string unless the value is known. *)
Definition ValueString (v : String) : string :=
  match v with StringValue s => s | _ => "" end.

(** [types.Bool]: null, unknown or a known value. *)
Inductive Bool : Type :=
| BoolNull
| BoolUnknown
| BoolValue (b : bool).

(** [ValueBool] is [false] unless the value is known. *)
Definition ValueBool (v : Bool) : bool :=
  match v with BoolValue b => b | _ => false end.

(** [types.Map] with [ElementType: types.StringType]. *)
Inductive Map : Type :=
| MapNull
| MapUnknown
| MapValue (elems : gmap string String).

End types.

Module diag.

Inductive Severity : Type := SeverityError | SeverityWarning.

Record Diagnostic : Type := mkDiagnostic {
  severity : Severity;
  Summary : string;
  Detail : Msg
}.

Abbreviation Diagnostics := (list Diagnostic).

Definition isError (d : Diagnostic) : bool :=
  match severity d with SeverityError => true | SeverityWarning => false end.

Definition HasError (ds : Diagnostics) : bool := existsb isError ds.

Definition NewErrorDiagnostic (summary : string) (detail : Msg) : Diagnostic :=
  mkDiagnostic SeverityError summary detail.

(** [Diagnostic.Equal]: the same severity, summary and detail. *)
Definition Equal (d other : Diagnostic) : bool :=
  match severity d, severity other with
  | SeverityError, SeverityError | SeverityWarning, SeverityWarning =>
      String.eqb (Summary d) (Summary other) && Msg_eqb (Detail d) (Detail other)
  | _, _ => false
  end.

(** [Diagnostics.Contains]. *)
Definition Contains (diags : Diagnostics) (d : Diagnostic) : bool :=
  existsb (fun diag => Equal diag d) diags.

(** [Diagnostics.Append]: each diagnostic of [new] in turn is added at the
    end unless the collection already contains it. *)
Fixpoint Diagnostics_Append (diags new : Diagnostics) : Diagnostics :=
  match new with
  | [] => diags
  | d :: new =>
      Diagnostics_Append (if Contains diags d then diags else diags ++ [d]) new
  end.

End diag.
Export diag.

(** ** internal/azure/subscriptions/subscriptions.go *)
Module subscriptions.

(** JSON documents, as far as the request body needs them. *)
Inductive JSON : Type :=
| JString (s : string)
| JBool (b : bool)
| JObject (fields : Fields)
with Fields : Type :=
| FNil
| FCons (key : string) (value : JSON) (rest : Fields).

Record TagInheritanceProperties : Type := mkProperties {
  PreferContainerTags : bool
}.

Record TagInheritanceRequest : Type := mkTagInheritanceRequest {
  Kind : string;
  RequestProperties : TagInheritanceProperties
}.

Record TagInheritanceResponse : Type := mkTagInheritanceResponse {
  Id : string;
  Name : string;
  Type_ : string;
  Scope : string;
  Properties : TagInheritanceProperties
}.

(** [encoding/json] on the two request structs: one member per field, under
    the name of its [json] tag, in declaration order. *)
Definition jsonProperties (p : TagInheritanceProperties) : JSON :=
  JObject (FCons "preferContainerTags" (JBool (PreferContainerTags p)) FNil).

Definition jsonRequest (r : TagInheritanceRequest) : JSON :=
  JObject (FCons "kind" (JString (Kind r))
          (FCons "properties" (jsonProperties (RequestProperties r)) FNil)).

(** [net/url.Values]. *)
Abbreviation Values := (gmap string (list string)).

(** [Values.Set]: the key keeps the one value given. *)
Definition Values_Set (v : Values) (key value : string) : Values :=
  <[key := [value]]> v.

(** [net/url.URL], split where the code touches it. *)
Record URL : Type := mkURL {
  Location : string;
  RawQuery : string
}.

(** [policy.Request] with the [http.Request] it wraps. *)
Record Request : Type := mkRequest {
  Method : string;
  ReqURL : URL;
  Header : gmap string (list string);
  Body : option JSON
}.

Record Response : Type := mkHTTPResponse {
  StatusCode : nat;
  Payload : string
}.

(** [arm.Client] and the parts of [azcore/runtime] and [net/url] the client
    calls; none of them is code of this repository. *)
Record Client : Type := mkClient {
  Endpoint : string;
  JoinPaths : string -> string -> string;
  ParseURL : string -> result URL;
  Query : string -> Values;
  Encode : Values -> string;
  Do : Request -> result Response;
  UnmarshalAsJSON : Response -> result TagInheritanceResponse
}.

(** [SettingsClient]. *)
Record SettingsClient : Type := mkSettingsClient {
  internal : Client
}.

Definition http_MethodGet : string := "GET".
Definition http_MethodPut : string := "PUT".

(** [runtime.NewRequest]: the endpoint has to parse as a URL. *)
Definition NewRequest (c : Client) (httpMethod endpoint : string) : result Request :=
  match ParseURL c endpoint with
  | Err e => Err e
  | Ok u => Ok (mkRequest httpMethod u ∅ None)
  end.

Definition setRawQuery (req : Request) (q : string) : Request :=
  mkRequest (Method req) (mkURL (Location (ReqURL req)) q) (Header req) (Body req).

Definition setHeader (req : Request) (key : string) (value : list string) : Request :=
  mkRequest (Method req) (ReqURL req) (<[key := value]> (Header req)) (Body req).

(** [runtime.MarshalAsJSON]: the encoded value becomes the body, sent as
    [application/json]. *)
Definition MarshalAsJSON (req : Request) (v : TagInheritanceRequest)
  : Request * option error :=
  (mkRequest (Method req) (ReqURL req)
     (<["Content-Type" := ["application/json"]]> (Header req))
     (Some (jsonRequest v)), None).

Definition getTagInheritanceRequest (client : SettingsClient) : result Request :=
  let urlPath := "/providers/Microsoft.CostManagement/settings/taginheritance" in
  match NewRequest (internal client) http_MethodGet
          (JoinPaths (internal client) (Endpoint (internal client)) urlPath) with
  | Err err => Err err
  | Ok req =>
      let reqQP := Query (internal client) (RawQuery (ReqURL req)) in
      let reqQP := Values_Set reqQP "api-version" "2022-10-01-preview" in
      let req := setRawQuery req (Encode (internal client) reqQP) in
      let req := setHeader req "Accept" ["application/json"] in
      Ok req
  end.

Definition createTagInheritanceRequest (client : SettingsClient)
    (preferContainerTags : bool) : result Request :=
  let params := mkTagInheritanceRequest "taginheritance"
                  (mkProperties preferContainerTags) in
  let urlPath := "/providers/Microsoft.CostManagement/settings/taginheritance" in
  match NewRequest (internal client) http_MethodPut
          (JoinPaths (internal client) (Endpoint (internal client)) urlPath) with
  | Err err => Err err
  | Ok req =>
      let reqQP := Query (internal client) (RawQuery (ReqURL req)) in
      let reqQP := Values_Set reqQP "api-version" "2022-10-01-preview" in
      let req := setRawQuery req (Encode (internal client) reqQP) in
      let req := setHeader req "Accept" ["application/json"] in
      match MarshalAsJSON req params with
      | (req, None) => Ok req
      | (_, Some err) => Err err
      end
  end.

Definition handleTagInheritanceResponse (client : SettingsClient)
    (resp : Response) : result TagInheritanceResponse :=
  match UnmarshalAsJSON (internal client) resp with
  | Err err => Err err
  | Ok TagInheritance => Ok TagInheritance
  end.

Definition GetTagInheritance (client : SettingsClient)
  : result TagInheritanceResponse :=
  match getTagInheritanceRequest client with
  | Err err => Err err
  | Ok req =>
      match Do (internal client) req with
      | Err err => Err err
      | Ok resp => handleTagInheritanceResponse client resp
      end
  end.

Definition EnableTagInheritance (client : SettingsClient)
    (preferContainerTags : bool) : result TagInheritanceResponse :=
  match createTagInheritanceRequest client preferContainerTags with
  | Err err => Err err
  | Ok req =>
      match Do (internal client) req with
      | Err err => Err err
      | Ok resp => handleTagInheritanceResponse client resp
      end
  end.

Definition DisableTagInheritance (client : SettingsClient)
  : result TagInheritanceResponse :=
  match createTagInheritanceRequest client false with
  | Err err => Err err
  | Ok req =>
      match Do (internal client) req with
      | Err err => Err err
      | Ok resp => handleTagInheritanceResponse client resp
      end
  end.

(** constants.go. *)
Definition moduleName : string := "armcostmanagement".
Definition moduleVersion : string := "v2.0.0".

(** [NewSettingsClient]: [arm_NewClient] stands for the library's
    [arm.NewClient], given the client name, the module version and the
    credential ([options] is always [nil] here). *)
Definition NewSettingsClient {TokenCredential : Type}
    (arm_NewClient : string -> string -> TokenCredential -> result Client)
    (subscriptionID : string) (credential : TokenCredential)
  : result SettingsClient :=
  match arm_NewClient (moduleName +:+ ".SettingsClient") moduleVersion credential with
  | Err err => Err err
  | Ok cl => Ok (mkSettingsClient cl)
  end.

End subscriptions.

(** ** Libraries the provider calls *)

(** [hashicorp/go-azure-sdk/sdk/environments]. *)
Module environments.

Record Api : Type := mkApi {
  ApiName : string
}.

Record Environment : Type := mkEnvironment {
  EnvName : string;
  MicrosoftGraph : Api;
  ResourceManager : Api
}.

End environments.

(** [hashicorp/go-azure-sdk/sdk/auth], the fields [Configure] writes. *)
Module auth.

Record Credentials : Type := mkCredentials {
  Environment : environments.Environment;
  TenantID : string;
  ClientID : string;
  EnableAuthenticatingUsingClientSecret : bool;
  ClientSecret : string;
  EnableAuthenticatingUsingClientCertificate : bool;
  ClientCertificatePath : string;
  EnableAuthenticationUsingOIDC : bool;
  OIDCAssertionToken : string
}.

Definition setEnableAuthenticatingUsingClientSecret (c : Credentials) (b : bool) :=
  mkCredentials (Environment c) (TenantID c) (ClientID c) b (ClientSecret c)
    (EnableAuthenticatingUsingClientCertificate c) (ClientCertificatePath c)
    (EnableAuthenticationUsingOIDC c) (OIDCAssertionToken c).

Definition setClientSecret (c : Credentials) (s : string) :=
  mkCredentials (Environment c) (TenantID c) (ClientID c)
    (EnableAuthenticatingUsingClientSecret c) s
    (EnableAuthenticatingUsingClientCertificate c) (ClientCertificatePath c)
    (EnableAuthenticationUsingOIDC c) (OIDCAssertionToken c).

Definition setEnableAuthenticatingUsingClientCertificate (c : Credentials) (b : bool) :=
  mkCredentials (Environment c) (TenantID c) (ClientID c)
    (EnableAuthenticatingUsingClientSecret c) (ClientSecret c)
    b (ClientCertificatePath c)
    (EnableAuthenticationUsingOIDC c) (OIDCAssertionToken c).

Definition setClientCertificatePath (c : Credentials) (s : string) :=
  mkCredentials (Environment c) (TenantID c) (ClientID c)
    (EnableAuthenticatingUsingClientSecret c) (ClientSecret c)
    (EnableAuthenticatingUsingClientCertificate c) s
    (EnableAuthenticationUsingOIDC c) (OIDCAssertionToken c).

Definition setEnableAuthenticationUsingOIDC (c : Credentials) (b : bool) :=
  mkCredentials (Environment c) (TenantID c) (ClientID c)
    (EnableAuthenticatingUsingClientSecret c) (ClientSecret c)
    (EnableAuthenticatingUsingClientCertificate c) (ClientCertificatePath c)
    b (OIDCAssertionToken c).

Definition setOIDCAssertionToken (c : Credentials) (s : string) :=
  mkCredentials (Environment c) (TenantID c) (ClientID c)
    (EnableAuthenticatingUsingClientSecret c) (ClientSecret c)
    (EnableAuthenticatingUsingClientCertificate c) (ClientCertificatePath c)
    (EnableAuthenticationUsingOIDC c) s.

(** An [auth.Authorizer] is whatever the library built for the credentials
    and the API it was asked for. *)
Record Authorizer : Type := mkAuthorizer {
  AuthorizerHandle : nat
}.

End auth.

Module autorest.

Inductive Authorizer : Type :=
| AutorestAuthorizer (a : auth.Authorizer).

End autorest.

(** [azidentity]: a credential object is the constructor that made it with
    the arguments it was given. *)
Module azidentity.

Inductive TokenCredential : Type :=
| ClientSecretCredential (tenantID clientID clientSecret : string)
| ClientCertificateCredential (tenantID clientID : string)
    (certs : list string) (key : string)
| WorkloadIdentityCredential (tenantID clientID tokenFilePath : string).

End azidentity.

(** [armresources]: the tags of a scope, with Go's nil pointers and nil
    map. *)
Module armresources.

Record Tags : Type := mkTags {
  TagsMap : option (gmap string (option string))
}.

Record TagsResource : Type := mkTagsResource {
  Properties : option Tags
}.

End armresources.

(** ** Handlers

    A handler fills in the response it is given, calls out (each call is
    recorded, in order) and may [return] early. *)

Module Call.

Inductive t : Type :=
| tflog_Debug (msg : string)
| tflog_Trace (msg : string)
| os_ReadFile (name : string)
| NewClientSecretCredential (tenantID clientID clientSecret : string)
| ParseCertificates (certData : string)
| NewClientCertificateCredential (tenantID clientID : string)
    (certs : list string) (key : string)
| NewWorkloadIdentityCredential (tenantID clientID tokenFilePath : string)
| NewAuthorizerFromCredentials (c : auth.Credentials) (api : environments.Api)
| CreateOrUpdateAtScope (scope : string) (parameters : armresources.TagsResource)
| GetAtScope (scope : string)
| GetTagInheritance
| EnableTagInheritance (preferContainerTags : bool)
| DisableTagInheritance.

End Call.

(** The response under construction: [D] is the state of a resource, or
    the data a provider hands to its resources. *)
Record Resp (D : Type) : Type := mkResp {
  Calls : list Call.t;
  RespDiagnostics : Diagnostics;
  Data : option D
}.
Arguments mkResp {D} _ _ _.
Arguments Calls {D} _.
Arguments RespDiagnostics {D} _.
Arguments Data {D} _.

(** [None] as the value: the handler has returned. *)
Definition Run (D A : Type) : Type := Resp D -> Resp D * option A.

Definition ret {D A} (a : A) : Run D A := fun r => (r, Some a).

Definition bind {D A B} (m : Run D A) (f : A -> Run D B) : Run D B :=
  fun r => match m r with
           | (r', Some a) => f a r'
           | (r', None) => (r', None)
           end.

Notation "x <- m ;; k" := (bind m (fun x => k))
  (at level 100, m at next level, right associativity).
Notation "m ;; k" := (bind m (fun _ => k))
  (at level 100, right associativity).

(** Go's [return] in a handler. *)
Definition return_ {D A} : Run D A := fun r => (r, None).

Definition call {D} (c : Call.t) : Run D unit :=
  fun r => (mkResp (Calls r ++ [c]) (RespDiagnostics r) (Data r), Some tt).

(** [resp.Diagnostics.Append]. *)
Definition Append {D} (ds : Diagnostics) : Run D unit :=
  fun r =>
    (mkResp (Calls r) (Diagnostics_Append (RespDiagnostics r) ds) (Data r), Some tt).

(** [resp.Diagnostics.AddError]. *)
Definition AddError {D} (summary : string) (detail : Msg) : Run D unit :=
  Append [NewErrorDiagnostic summary detail].

(** [if resp.Diagnostics.HasError() { return }]. *)
Definition returnIfHasError {D} : Run D unit :=
  fun r => if HasError (RespDiagnostics r) then (r, None) else (r, Some tt).

(** [resp.State.Set], and the provider data of a configure response. *)
Definition State_Set {D} (d : D) : Run D unit :=
  fun r => (mkResp (Calls r) (RespDiagnostics r) (Some d), Some tt).

(** The idiom [v, err := f(...); if err != nil { AddError(...); return }]
    on the outcome [res] of a call: the value, or the end of the handler
    with one more error diagnostic. *)
Definition orFail {D A} (res : result A)
    (summary : string) (detail : error -> Msg) : Run D A :=
  match res with
  | Ok a => ret a
  | Err err => AddError summary (detail err) ;; return_
  end.

(** A fresh response. *)
Definition newResp {D} : Resp D := mkResp [] [] None.

(** What a finished handler leaves behind. *)
Definition run {D A} (m : Run D A) : Resp D := fst (m newResp).

(** An assignment to the object the response holds. *)
Definition modify {D} (f : D -> D) : Run D unit :=
  fun r => (mkResp (Calls r) (RespDiagnostics r) (option_map f (Data r)), Some tt).

(** What a handler leaves behind when it starts from the object [d]. *)
Definition runFrom {D A} (d : D) (m : Run D A) : Resp D :=
  fst (m (mkResp [] [] (Some d))).

(** [s != ""]. *)
Definition nonempty (s : string) : bool :=
  match s with EmptyString => false | String _ _ => true end.

(** ** The provider (package [provider], provider.go) *)
Module AzurexProvider.

(** [AzurexProviderModel]. *)
Record AzurexProviderModel : Type := mkModel {
  SubscriptionID : types.String;
  TenantID : types.String;
  ClientID : types.String;
  ClientSecret : types.String
}.

(** [AzurexContext]. *)
Record AzurexContext : Type := mkContext {
  ctxSubscriptionID : string;
  Graph : option autorest.Authorizer;
  Management : option autorest.Authorizer;
  MicrosoftGraph : option auth.Authorizer;
  ResourceManager : option auth.Authorizer;
  IdentityCreds : option azidentity.TokenCredential
}.

(** A [schema.StringAttribute] of the provider schema. *)
Record StringAttribute : Type := mkStringAttribute {
  MarkdownDescription : string;
  Optional : bool;
  Sensitive : bool
}.

Definition Schema : gmap string StringAttribute :=
  list_to_map [
    ("subscription_id", mkStringAttribute "Azure Subscription ID" true false);
    ("tenant_id", mkStringAttribute "Tenant ID" true false);
    ("client_id", mkStringAttribute "SettingsClient ID" true false);
    ("client_secret", mkStringAttribute "SettingsClient Secret" true true)
  ].

(** What [Configure] reaches outside the repository: the process
    environment and file system, and the identity libraries.  A credential
    constructor either fails or yields the object of [azidentity] above. *)
Record Host : Type := mkHost {
  Getenv : string -> string;
  ReadFile : string -> result string;
  FromName : string -> result environments.Environment;
  NewClientSecretCredential : string -> string -> string -> option error;
  ParseCertificates : string -> result (list string * string);
  NewClientCertificateCredential :
    string -> string -> list string -> string -> option error;
  NewWorkloadIdentityCredential : string -> string -> string -> option error;
  NewAuthorizerFromCredentials :
    auth.Credentials -> environments.Api -> result auth.Authorizer
}.

(** [provider.ConfigureRequest]: what [req.Config.Get(ctx, &data)] appends
    and what it leaves in [data]. *)
Record ConfigureRequest : Type := mkConfigureRequest {
  Config_Get : Diagnostics * AzurexProviderModel
}.

(** [resp.DataSourceData] and [resp.ResourceData]. *)
Record ConfigureData : Type := mkConfigureData {
  DataSourceData : AzurexContext;
  ResourceData : AzurexContext
}.

Definition built (failure : option error) (c : azidentity.TokenCredential)
  : result azidentity.TokenCredential :=
  match failure with Some err => Err err | None => Ok c end.

Definition gotError (err : error) : Msg := Sprintf1 "got: %s" err.

Definition Configure (h : Host) (req : ConfigureRequest) : Run ConfigureData unit :=
  let data := snd (Config_Get req) in
  Append (fst (Config_Get req)) ;;
  returnIfHasError ;;
  Append (fst (Config_Get req)) ;;
  let data :=
    let v := Getenv h "ARM_SUBSCRIPTION_ID" in
    if nonempty v
    then mkModel (types.StringValue v) (TenantID data) (ClientID data) (ClientSecret data)
    else data in
  let data :=
    let v := Getenv h "ARM_TENANT_ID" in
    if nonempty v
    then mkModel (SubscriptionID data) (types.StringValue v) (ClientID data) (ClientSecret data)
    else data in
  returnIfHasError ;;
  env <- orFail (FromName h "global") "unable to set environment" gotError ;;
  let credentials :=
    auth.mkCredentials env (types.ValueString (TenantID data))
      (Getenv h "ARM_CLIENT_ID") true "" false "" false "" in
  selected <-
    (if nonempty (Getenv h "ARM_CLIENT_SECRET") then
       call (Call.tflog_Debug "authentication type: client secret") ;;
       let credentials := auth.setEnableAuthenticatingUsingClientSecret credentials true in
       let credentials := auth.setClientSecret credentials (Getenv h "ARM_CLIENT_SECRET") in
       let tenantID := types.ValueString (TenantID data) in
       let clientID := Getenv h "ARM_CLIENT_ID" in
       let clientSecret := Getenv h "ARM_CLIENT_SECRET" in
       call (Call.NewClientSecretCredential tenantID clientID clientSecret) ;;
       creds <- orFail
         (built (NewClientSecretCredential h tenantID clientID clientSecret)
            (azidentity.ClientSecretCredential tenantID clientID clientSecret))
         "unable to configure credential" gotError ;;
       ret (credentials, Some creds)
     else if nonempty (Getenv h "ARM_CLIENT_CERTIFICATE_FILE") then
       call (Call.tflog_Debug "authentication type: client certificate") ;;
       let credentials := auth.setEnableAuthenticatingUsingClientCertificate credentials true in
       let credentials :=
         auth.setClientCertificatePath credentials (Getenv h "ARM_CLIENT_CERTIFICATE_FILE") in
       call (Call.os_ReadFile (Getenv h "ARM_CLIENT_CERTIFICATE_FILE")) ;;
       certData <- orFail (ReadFile h (Getenv h "ARM_CLIENT_CERTIFICATE_FILE"))
         "unable to configure credential" gotError ;;
       call (Call.ParseCertificates certData) ;;
       parsed <- orFail (ParseCertificates h certData)
         "unable to configure credential" gotError ;;
       let '(certs, pkey) := parsed in
       let tenantID := types.ValueString (TenantID data) in
       let clientID := Getenv h "ARM_CLIENT_ID" in
       call (Call.NewClientCertificateCredential tenantID clientID certs pkey) ;;
       creds <- orFail
         (built (NewClientCertificateCredential h tenantID clientID certs pkey)
            (azidentity.ClientCertificateCredential tenantID clientID certs pkey))
         "unable to configure credential" gotError ;;
       ret (credentials, Some creds)
     else if nonempty (Getenv h "AZURE_FEDERATED_TOKEN_FILE") then
       call (Call.tflog_Debug "authentication type: federated token") ;;
       call (Call.os_ReadFile (Getenv h "AZURE_FEDERATED_TOKEN_FILE")) ;;
       token <- orFail (ReadFile h (Getenv h "AZURE_FEDERATED_TOKEN_FILE"))
         "unable to configure credential" gotError ;;
       let credentials := auth.setEnableAuthenticationUsingOIDC credentials true in
       let credentials := auth.setOIDCAssertionToken credentials token in
       let tenantID := types.ValueString (TenantID data) in
       let clientID := Getenv h "AZURE_CLIENT_ID" in
       let tokenFilePath := Getenv h "AZURE_FEDERATED_TOKEN_FILE" in
       call (Call.NewWorkloadIdentityCredential tenantID clientID tokenFilePath) ;;
       creds <- orFail
         (built (NewWorkloadIdentityCredential h tenantID clientID tokenFilePath)
            (azidentity.WorkloadIdentityCredential tenantID clientID tokenFilePath))
         "unable to configure credential" gotError ;;
       ret (credentials, Some creds)
     else
       ret (credentials, None)) ;;
  let '(credentials, identityCreds) := selected in
  call (Call.NewAuthorizerFromCredentials credentials (environments.MicrosoftGraph env)) ;;
  graphAuthorizer <- orFail
    (NewAuthorizerFromCredentials h credentials (environments.MicrosoftGraph env))
    "unable to configure credential" gotError ;;
  call (Call.NewAuthorizerFromCredentials credentials (environments.ResourceManager env)) ;;
  mgmtAuthorizer <- orFail
    (NewAuthorizerFromCredentials h credentials (environments.ResourceManager env))
    "unable to configure credential" gotError ;;
  let providerContext :=
    mkContext (types.ValueString (SubscriptionID data))
      (Some (autorest.AutorestAuthorizer graphAuthorizer))
      (Some (autorest.AutorestAuthorizer mgmtAuthorizer))
      None None identityCreds in
  State_Set (mkConfigureData providerContext providerContext).

End AzurexProvider.

(** ** The [subscription_tags] resource (package [provider]) *)
Module SubscriptionTagsResource.

(** [SubscriptionTagsResourceModel]. *)
Record SubscriptionTagsResourceModel : Type := mkModel {
  Tags : types.Map;
  InheritTags : types.Bool;
  PreferContainers : types.Bool;
  RemoveTags : types.Bool;
  RemoteInheritTags : types.Bool
}.

Definition setInheritTags (data : SubscriptionTagsResourceModel) (v : types.Bool) :=
  mkModel (Tags data) v (PreferContainers data) (RemoveTags data) (RemoteInheritTags data).

Definition setPreferContainers (data : SubscriptionTagsResourceModel) (v : types.Bool) :=
  mkModel (Tags data) (InheritTags data) v (RemoveTags data) (RemoteInheritTags data).

Definition setTags (data : SubscriptionTagsResourceModel) (v : types.Map) :=
  mkModel v (InheritTags data) (PreferContainers data) (RemoveTags data)
    (RemoteInheritTags data).

(** The attributes of [resource/schema]. *)
Inductive Attribute : Type :=
| StringAttribute (MarkdownDescription : string) (Optional : bool)
| MapAttribute (Required : bool) (MarkdownDescription : string)
| BoolAttribute (MarkdownDescription : string) (Computed : bool) (Default : bool).

Definition Schema : gmap string Attribute :=
  list_to_map [
    ("tags", MapAttribute true "Tags to apply to a subscription");
    ("inherit_tags",
      BoolAttribute "Enables Inherit Tags (does not disable inherit tags on destroy)"
        true true);
    ("prefer_containers",
      BoolAttribute
        "Prefer subscription/resource group tags over resource tags when there's a conflict"
        true true);
    ("ondelete_remove_tags", BoolAttribute "Remove tags on delete of resource" true true);
    ("ondelete_remove_inherit_tags",
      BoolAttribute "Remove tag inheritance on resource deletion" true false)
  ].

(** [armresources.TagsClient]: the error of a write, the outcome of a
    read. *)
Record TagsClient : Type := mkTagsClient {
  CreateOrUpdateAtScope : string -> armresources.TagsResource -> option error;
  GetAtScope : string -> result armresources.TagsResource
}.

(** The conversions of the plugin framework between [types.Map] and a Go
    [map[string]string]: the diagnostics and the value each leaves. *)
Record Framework : Type := mkFramework {
  ElementsAs : types.Map -> Diagnostics * gmap string string;
  MapValueFrom : gmap string string -> types.Map * Diagnostics
}.

(** [SubscriptionTagsResource]. *)
Record SubscriptionTagsResource : Type := mkResource {
  SettingsClient : subscriptions.SettingsClient;
  TagsClient_ : TagsClient;
  SubscriptionID : string
}.

Record CreateRequest : Type := mkCreateRequest {
  Create_Plan_Get : Diagnostics * SubscriptionTagsResourceModel
}.

Record ReadRequest : Type := mkReadRequest {
  Read_State_Get : Diagnostics * SubscriptionTagsResourceModel
}.

Record UpdateRequest : Type := mkUpdateRequest {
  Update_Plan_Get : Diagnostics * SubscriptionTagsResourceModel;
  Update_State_Get : Diagnostics * SubscriptionTagsResourceModel
}.

Record DeleteRequest : Type := mkDeleteRequest {
  Delete_State_Get : Diagnostics * SubscriptionTagsResourceModel
}.

Record ImportStateRequest : Type := mkImportStateRequest {
  ID : string
}.

(** [fmt.Sprintf("/subscriptions/%s", id)]. *)
Definition subscriptionScope (id : string) : string := "/subscriptions/" +:+ id.

(** The loop of [applyTags]: every value behind a pointer of its own. *)
Definition toAzureTags (tagMap : gmap string string) : gmap string (option string) :=
  map_fold (fun k v azureTags => <[k := Some v]> azureTags) ∅ tagMap.

Definition applyTags {D} (r : SubscriptionTagsResource) (subscriptionID : string)
    (tagMap : gmap string string) : Run D (option error) :=
  let azureTags := toAzureTags tagMap in
  let scope := subscriptionScope subscriptionID in
  let parameters :=
    armresources.mkTagsResource (Some (armresources.mkTags (Some azureTags))) in
  call (Call.CreateOrUpdateAtScope scope parameters) ;;
  match CreateOrUpdateAtScope (TagsClient_ r) scope parameters with
  | Some err =>
      ret (Some (Sprintf2 "failed to set tags for subscription %q: %+v"
                   (Lit subscriptionID) err))
  | None => ret None
  end.

(** [if err != nil { resp.Diagnostics.AddError(summary, err.Error()); return }]. *)
Definition failOn {D} (err : option error) (summary : string) : Run D unit :=
  match err with
  | Some err => AddError summary err ;; return_
  | None => ret tt
  end.

Definition Error (err : error) : Msg := err.

Definition Create (fw : Framework) (r : SubscriptionTagsResource) (req : CreateRequest)
  : Run SubscriptionTagsResourceModel unit :=
  let data := snd (Create_Plan_Get req) in
  Append (fst (Create_Plan_Get req)) ;;
  returnIfHasError ;;
  call (Call.tflog_Trace "creating subscription tags resource") ;;
  let tfTags := snd (ElementsAs fw (Tags data)) in
  Append (fst (ElementsAs fw (Tags data))) ;;
  returnIfHasError ;;
  err <- applyTags r (SubscriptionID r) tfTags ;;
  failOn err "Error applying tags to subscription" ;;
  data <-
    (if types.ValueBool (InheritTags data) then
       call (Call.EnableTagInheritance (types.ValueBool (PreferContainers data))) ;;
       tagInheritance <- orFail
         (subscriptions.EnableTagInheritance (SettingsClient r)
            (types.ValueBool (PreferContainers data)))
         "Error configuring tag inheritance" Error ;;
       if nonempty (subscriptions.Id tagInheritance) then
         let data := setInheritTags data (types.BoolValue true) in
         ret (setPreferContainers data
                (types.BoolValue
                   (subscriptions.PreferContainerTags
                      (subscriptions.Properties tagInheritance))))
       else ret data
     else ret data) ;;
  State_Set data.

(** The loop of [Read] over the tags Azure returned. *)
Definition toTfTags (tags : gmap string (option string)) : gmap string string :=
  map_fold (fun k v tfTags =>
              match v with
              | Some s => <[k := s]> tfTags
              | None => tfTags
              end) ∅ tags.

Definition convertTags (tagsResponse : armresources.TagsResource) : gmap string string :=
  match armresources.Properties tagsResponse with
  | Some properties =>
      match armresources.TagsMap properties with
      | Some tags => toTfTags tags
      | None => ∅
      end
  | None => ∅
  end.

Definition Read (fw : Framework) (r : SubscriptionTagsResource) (req : ReadRequest)
  : Run SubscriptionTagsResourceModel unit :=
  let data := snd (Read_State_Get req) in
  Append (fst (Read_State_Get req)) ;;
  returnIfHasError ;;
  let scope := subscriptionScope (SubscriptionID r) in
  call (Call.GetAtScope scope) ;;
  tagsResponse <- orFail (GetAtScope (TagsClient_ r) scope)
    "Error reading subscription tags"
    (fun err => Sprintf2 "Unable to read tags for subscription %s: %s"
                  (Lit (SubscriptionID r)) err) ;;
  let tfTags := convertTags tagsResponse in
  let tagsValue := fst (MapValueFrom fw tfTags) in
  Append (snd (MapValueFrom fw tfTags)) ;;
  returnIfHasError ;;
  let data := setTags data tagsValue in
  call Call.GetTagInheritance ;;
  tagInheritance <- orFail (subscriptions.GetTagInheritance (SettingsClient r))
    "Error getting tag inheritance settings" Error ;;
  let data :=
    if nonempty (subscriptions.Id tagInheritance) then
      let data := setInheritTags data (types.BoolValue true) in
      setPreferContainers data
        (types.BoolValue
           (subscriptions.PreferContainerTags (subscriptions.Properties tagInheritance)))
    else
      setInheritTags data (types.BoolValue false) in
  State_Set data.

Definition Update (fw : Framework) (r : SubscriptionTagsResource) (req : UpdateRequest)
  : Run SubscriptionTagsResourceModel unit :=
  let data := snd (Update_Plan_Get req) in
  let oldData := snd (Update_State_Get req) in
  Append (fst (Update_Plan_Get req)) ;;
  Append (fst (Update_State_Get req)) ;;
  returnIfHasError ;;
  call (Call.tflog_Trace "updating subscription tags resource") ;;
  let tfTags := snd (ElementsAs fw (Tags data)) in
  Append (fst (ElementsAs fw (Tags data))) ;;
  returnIfHasError ;;
  err <- applyTags r (SubscriptionID r) tfTags ;;
  failOn err "Error updating subscription tags" ;;
  data <-
    (if types.ValueBool (InheritTags data) then
       call (Call.EnableTagInheritance (types.ValueBool (PreferContainers data))) ;;
       tagInheritance <- orFail
         (subscriptions.EnableTagInheritance (SettingsClient r)
            (types.ValueBool (PreferContainers data)))
         "Error updating tag inheritance settings" Error ;;
       if nonempty (subscriptions.Id tagInheritance) then
         let data := setInheritTags data (types.BoolValue true) in
         ret (setPreferContainers data
                (types.BoolValue
                   (subscriptions.PreferContainerTags
                      (subscriptions.Properties tagInheritance))))
       else ret data
     else if types.ValueBool (InheritTags oldData)
             && negb (types.ValueBool (InheritTags data)) then
       call Call.DisableTagInheritance ;;
       orFail (subscriptions.DisableTagInheritance (SettingsClient r))
         "Error disabling tag inheritance" Error ;;
       ret (setInheritTags data (types.BoolValue false))
     else ret data) ;;
  State_Set data.

Definition Delete (r : SubscriptionTagsResource) (req : DeleteRequest)
  : Run SubscriptionTagsResourceModel unit :=
  let data := snd (Delete_State_Get req) in
  Append (fst (Delete_State_Get req)) ;;
  returnIfHasError ;;
  call (Call.tflog_Trace "deleting subscription tags resource") ;;
  (if types.ValueBool (RemoveTags data) then
     err <- applyTags r (SubscriptionID r) ∅ ;;
     failOn err "Error removing subscription tags"
   else ret tt) ;;
  (if types.ValueBool (RemoteInheritTags data) && types.ValueBool (InheritTags data) then
     call Call.DisableTagInheritance ;;
     orFail (subscriptions.DisableTagInheritance (SettingsClient r))
       "Error disabling tag inheritance" Error ;;
     ret tt
   else ret tt).

(** [resource.ImportStatePassthroughID] of the plugin framework: the
    identifier is written to the state at [attrPath], and the framework,
    which holds the schema of the resource, reports an error instead when
    the schema has no string attribute at that path. *)
Definition ImportStatePassthroughID (attrPath : string) (req : ImportStateRequest)
  : Run (gmap string string) unit :=
  match Schema !! attrPath with
  | Some (StringAttribute _ _) => State_Set {[ attrPath := ID req ]}
  | _ => AddError "State Write Error" (Lit attrPath)
  end.

Definition ImportState (req : ImportStateRequest) : Run (gmap string string) unit :=
  ImportStatePassthroughID "subscription_id" req.

End SubscriptionTagsResource.

(** ** Setting the resource up (package [provider])

    [Configure] of the resource fills in its receiver from the data the
    provider handed on. *)
Module ResourceSetup.

(** [armsubscriptions.SubscriptionClient]; the resource keeps one and never
    calls it. *)
Record SubscriptionClient : Type := mkSubscriptionClient {
  SubscriptionClientHandle : nat
}.

(** The receiver [*SubscriptionTagsResource] as Go has it: three pointers,
    nil until [Configure] assigns them, and the subscription. *)
Record Receiver : Type := mkReceiver {
  SettingsClient : option subscriptions.SettingsClient;
  SubscriptionsClient : option SubscriptionClient;
  TagsClient : option SubscriptionTagsResource.TagsClient;
  SubscriptionID : string
}.

(** [NewSubscriptionTagsResource]: [&SubscriptionTagsResource{}]. *)
Definition NewSubscriptionTagsResource : Receiver := mkReceiver None None None "".

Definition setSettingsClient (v : subscriptions.SettingsClient) (r : Receiver) :=
  mkReceiver (Some v) (SubscriptionsClient r) (TagsClient r) (SubscriptionID r).

Definition setSubscriptionsClient (v : SubscriptionClient) (r : Receiver) :=
  mkReceiver (SettingsClient r) (Some v) (TagsClient r) (SubscriptionID r).

Definition setTagsClient (v : SubscriptionTagsResource.TagsClient) (r : Receiver) :=
  mkReceiver (SettingsClient r) (SubscriptionsClient r) (Some v) (SubscriptionID r).

Definition setSubscriptionID (v : string) (r : Receiver) :=
  mkReceiver (SettingsClient r) (SubscriptionsClient r) (TagsClient r) v.

(** [req.ProviderData], an [any]: nil, an [AzurexContext], or a value of
    another type. *)
Inductive ProviderData : Type :=
| NoProviderData
| Context (data : AzurexProvider.AzurexContext)
| OtherProviderData.

Record ConfigureRequest : Type := mkConfigureRequest {
  ProviderData_ : ProviderData
}.

(** The client constructors of the Azure SDK. *)
Record SDK : Type := mkSDK {
  arm_NewClient :
    string -> string -> option azidentity.TokenCredential -> result subscriptions.Client;
  NewSubscriptionClient :
    option azidentity.TokenCredential -> result SubscriptionClient;
  NewTagsClient :
    string -> option azidentity.TokenCredential
    -> result SubscriptionTagsResource.TagsClient
}.

Definition gotError (err : error) : Msg := Sprintf1 "got: %s" err.

Definition Configure (sdk : SDK) (req : ConfigureRequest) : Run Receiver unit :=
  match ProviderData_ req with
  | NoProviderData => return_
  | OtherProviderData =>
      AddError "unable to obtain provider data" (Lit "provider data not available") ;;
      return_
  | Context data =>
      settingsClient <- orFail
        (subscriptions.NewSettingsClient (arm_NewClient sdk)
           (AzurexProvider.ctxSubscriptionID data) (AzurexProvider.IdentityCreds data))
        "unable to configure settings client" gotError ;;
      modify (setSettingsClient settingsClient) ;;
      subClient <- orFail
        (NewSubscriptionClient sdk (AzurexProvider.IdentityCreds data))
        "unable to configure subscription client" gotError ;;
      modify (setSubscriptionsClient subClient) ;;
      tagsClient <- orFail
        (NewTagsClient sdk (AzurexProvider.ctxSubscriptionID data)
           (AzurexProvider.IdentityCreds data))
        "unable to configure tags client" gotError ;;
      modify (setTagsClient tagsClient) ;;
      modify (setSubscriptionID (AzurexProvider.ctxSubscriptionID data))
  end.

(** The receiver as the lifecycle handlers use it: they dereference the
    settings and the tags client. *)
Definition ready (r : Receiver)
  : option SubscriptionTagsResource.SubscriptionTagsResource :=
  match SettingsClient r, TagsClient r with
  | Some settings, Some tags =>
      Some (SubscriptionTagsResource.mkResource settings tags (SubscriptionID r))
  | _, _ => None
  end.

(** The receiver after [Configure], whether or not it returned early. *)
Definition configured (sdk : SDK) (r : Receiver) (req : ConfigureRequest) : Receiver :=
  match Data (runFrom r (Configure sdk req)) with
  | Some r' => r'
  | None => r
  end.

End ResourceSetup.

(** ** Reading a trace of calls *)

Definition isEnable (c : Call.t) : bool :=
  match c with Call.EnableTagInheritance _ => true | _ => false end.

Definition isDisable (c : Call.t) : bool :=
  match c with Call.DisableTagInheritance => true | _ => false end.

Definition isGetInheritance (c : Call.t) : bool :=
  match c with Call.GetTagInheritance => true | _ => false end.

(** A call that writes the tags of a scope. *)
Definition isTagWrite (c : Call.t) : bool :=
  match c with Call.CreateOrUpdateAtScope _ _ => true | _ => false end.

(** A call to one of the three credential constructors of [azidentity]. *)
Definition isCredentialConstructor (c : Call.t) : bool :=
  match c with
  | Call.NewClientSecretCredential _ _ _
  | Call.NewClientCertificateCredential _ _ _ _
  | Call.NewWorkloadIdentityCredential _ _ _ => true
  | _ => false
  end.

(** How many calls of a trace satisfy [p]. *)
Definition count (p : Call.t -> bool) (cs : list Call.t) : nat :=
  length (List.filter p cs).

(** The [tflog.Debug] lines of a trace; [Configure] writes one when it
    picks an authentication type, and no other. *)
Fixpoint debugLines (cs : list Call.t) : list string :=
  match cs with
  | [] => []
  | Call.tflog_Debug msg :: cs => msg :: debugLines cs
  | _ :: cs => debugLines cs
  end.

(** ** Sample surroundings

    Concrete hosts, clients and requests on which the statements below are
    instantiated. *)
Module Sample.

Definition subscription : string := "1b75aa77-e080-4f83-b893-564dc9df7de5".

Definition inheritanceId : string :=
  "/subscriptions/1b75aa77-e080-4f83-b893-564dc9df7de5/providers/Microsoft.CostManagement/settings/taginheritance".

(** Azure answers with inheritance configured, containers not preferred. *)
Definition configured : subscriptions.TagInheritanceResponse :=
  subscriptions.mkTagInheritanceResponse inheritanceId "taginheritance"
    "Microsoft.CostManagement/Settings" "Subscription"
    (subscriptions.mkProperties false).

(** Azure answers with a document that carries no identifier. *)
Definition unset : subscriptions.TagInheritanceResponse :=
  subscriptions.mkTagInheritanceResponse "" "" "" "" (subscriptions.mkProperties true).

(** A settings client whose pipeline answers [200] with a body that
    decodes to [answer]. *)
Definition client (answer : subscriptions.TagInheritanceResponse)
  : subscriptions.SettingsClient :=
  subscriptions.mkSettingsClient
    (subscriptions.mkClient "https://management.azure.com"
       (fun root p => root +:+ p)
       (fun u => Ok (subscriptions.mkURL u ""))
       (fun _ => ∅)
       (fun v => match v !! "api-version" with
                 | Some [x] => "api-version=" +:+ x
                 | _ => ""
                 end)
       (fun _ => Ok (subscriptions.mkHTTPResponse 200 "{}"))
       (fun _ => Ok answer)).

(** One tag with a value and one whose value is null. *)
Definition azureTags : armresources.TagsResource :=
  armresources.mkTagsResource
    (Some (armresources.mkTags
             (Some (<["tag1" := Some "value1"]> (<["tag2" := None]> ∅))))).

Definition tagsClient : SubscriptionTagsResource.TagsClient :=
  SubscriptionTagsResource.mkTagsClient (fun _ _ => None) (fun _ => Ok azureTags).

Definition framework : SubscriptionTagsResource.Framework :=
  SubscriptionTagsResource.mkFramework
    (fun m => match m with
              | types.MapValue elems => ([], types.ValueString <$> elems)
              | _ => ([], ∅)
              end)
    (fun m => (types.MapValue (types.StringValue <$> m), [])).

Definition resource (answer : subscriptions.TagInheritanceResponse)
  : SubscriptionTagsResource.SubscriptionTagsResource :=
  SubscriptionTagsResource.mkResource (client answer) tagsClient subscription.

Definition declared (inherit removeTags removeInherit : bool)
  : SubscriptionTagsResource.SubscriptionTagsResourceModel :=
  SubscriptionTagsResource.mkModel
    (types.MapValue (<["tag1" := types.StringValue "value1"]> ∅))
    (types.BoolValue inherit) (types.BoolValue true)
    (types.BoolValue removeTags) (types.BoolValue removeInherit).

(** The variables of a process environment; [os.Getenv] of a variable that
    is not set is the empty string. *)
Fixpoint getenv (vars : list (string * string)) (name : string) : string :=
  match vars with
  | [] => ""
  | (k, v) :: vars => if String.eqb k name then v else getenv vars name
  end.

(** A host with the given environment, readable files, identity
    constructors that succeed, and an authorizer constructor that answers
    [authorizer] whatever it is asked. *)
Definition host (vars : list (string * string)) (authorizer : result auth.Authorizer)
  : AzurexProvider.Host :=
  AzurexProvider.mkHost (getenv vars)
    (fun _ => Ok "-----BEGIN CERTIFICATE-----")
    (fun name =>
       Ok (environments.mkEnvironment name
             (environments.mkApi "MicrosoftGraph")
             (environments.mkApi "ResourceManager")))
    (fun _ _ _ => None)
    (fun data => Ok ([data], "key"))
    (fun _ _ _ _ => None)
    (fun _ _ _ => None)
    (fun _ _ => authorizer).

Definition accepted : result auth.Authorizer := Ok (auth.mkAuthorizer 0).

Definition refused : result auth.Authorizer :=
  Err (Lit "no Authorizer could be configured, please check your configuration").

(** The same host with the authorizer constructor of the library as it
    behaves: it refuses credentials that carry neither a secret, nor a
    certificate path, nor a token, and builds an authorizer otherwise. *)
Definition guarded (vars : list (string * string)) : AzurexProvider.Host :=
  AzurexProvider.mkHost (getenv vars)
    (fun _ => Ok "-----BEGIN CERTIFICATE-----")
    (fun name =>
       Ok (environments.mkEnvironment name
             (environments.mkApi "MicrosoftGraph")
             (environments.mkApi "ResourceManager")))
    (fun _ _ _ => None)
    (fun data => Ok ([data], "key"))
    (fun _ _ _ _ => None)
    (fun _ _ _ => None)
    (fun c _ =>
       if nonempty (auth.ClientSecret c) || nonempty (auth.ClientCertificatePath c)
          || nonempty (auth.OIDCAssertionToken c)
       then accepted else refused).

(** A provider block that sets all four attributes. *)
Definition providerConfig : AzurexProvider.ConfigureRequest :=
  AzurexProvider.mkConfigureRequest
    ([], AzurexProvider.mkModel
           (types.StringValue subscription)
           (types.StringValue "cfg-tenant")
           (types.StringValue "cfg-client")
           (types.StringValue "cfg-secret")).

(** A settings client whose pipeline fails with [err]. *)
Definition unreachable (err : error) : subscriptions.SettingsClient :=
  subscriptions.mkSettingsClient
    (subscriptions.mkClient "https://management.azure.com"
       (fun root p => root +:+ p)
       (fun u => Ok (subscriptions.mkURL u ""))
       (fun _ => ∅)
       (fun _ => "api-version=2022-10-01-preview")
       (fun _ => Err err)
       (fun _ => Ok unset)).

Definition timeout : error := Lit "context deadline exceeded".

(** A tags client whose writes Azure refuses. *)
Definition readOnlyTags : SubscriptionTagsResource.TagsClient :=
  SubscriptionTagsResource.mkTagsClient
    (fun _ _ => Some (Lit "AuthorizationFailed")) (fun _ => Ok azureTags).

(** An SDK whose constructors succeed. *)
Definition sdk : ResourceSetup.SDK :=
  ResourceSetup.mkSDK
    (fun _ _ _ => Ok (subscriptions.internal (client configured)))
    (fun _ => Ok (ResourceSetup.mkSubscriptionClient 0))
    (fun _ _ => Ok tagsClient).

(** An SDK that cannot build the tags client. *)
Definition sdkWithoutTags : ResourceSetup.SDK :=
  ResourceSetup.mkSDK
    (fun _ _ _ => Ok (subscriptions.internal (client configured)))
    (fun _ => Ok (ResourceSetup.mkSubscriptionClient 0))
    (fun _ _ => Err (Lit "missing parameter subscriptionID")).

Definition deprecation : Diagnostic :=
  mkDiagnostic SeverityWarning "Deprecated attribute" (Lit "tenant_id").

End Sample.

(** ** What the statements speak of *)

(** The state [Read] records from the two answers of Azure. *)
Definition refreshed (fw : SubscriptionTagsResource.Framework)
    (req : SubscriptionTagsResource.ReadRequest)
    (tagsResponse : armresources.TagsResource)
    (tagInheritance : subscriptions.TagInheritanceResponse)
  : SubscriptionTagsResource.SubscriptionTagsResourceModel :=
  let data :=
    SubscriptionTagsResource.setTags
      (snd (SubscriptionTagsResource.Read_State_Get req))
      (fst (SubscriptionTagsResource.MapValueFrom fw
              (SubscriptionTagsResource.convertTags tagsResponse))) in
  if nonempty (subscriptions.Id tagInheritance) then
    SubscriptionTagsResource.setPreferContainers
      (SubscriptionTagsResource.setInheritTags data (types.BoolValue true))
      (types.BoolValue
         (subscriptions.PreferContainerTags (subscriptions.Properties tagInheritance)))
  else SubscriptionTagsResource.setInheritTags data (types.BoolValue false).

(** The declared tags decode and Azure accepts them at the scope of the
    subscription: [applyTags] returns [nil]. *)
Definition tagsApplied (fw : SubscriptionTagsResource.Framework)
    (r : SubscriptionTagsResource.SubscriptionTagsResource)
    (data : SubscriptionTagsResource.SubscriptionTagsResourceModel) : Prop :=
  HasError (fst (SubscriptionTagsResource.ElementsAs fw
                   (SubscriptionTagsResource.Tags data))) = false
  /\ SubscriptionTagsResource.CreateOrUpdateAtScope
       (SubscriptionTagsResource.TagsClient_ r)
       (SubscriptionTagsResource.subscriptionScope
          (SubscriptionTagsResource.SubscriptionID r))
       (armresources.mkTagsResource
          (Some (armresources.mkTags
                   (Some (SubscriptionTagsResource.toAzureTags
                            (snd (SubscriptionTagsResource.ElementsAs fw
                                    (SubscriptionTagsResource.Tags data))))))))
     = None.

(** The tenant [Configure] authenticates against: [ARM_TENANT_ID] when it
    is set, the declared [tenant_id] otherwise. *)
Definition effectiveTenant (h : AzurexProvider.Host)
    (req : AzurexProvider.ConfigureRequest) : string :=
  if nonempty (AzurexProvider.Getenv h "ARM_TENANT_ID")
  then AzurexProvider.Getenv h "ARM_TENANT_ID"
  else types.ValueString (AzurexProvider.TenantID (snd (AzurexProvider.Config_Get req))).

(** C3 as stated: whatever the environment holds, [Configure] picks exactly
    one authentication type. *)
Definition selectsOneMode (h : AzurexProvider.Host)
    (req : AzurexProvider.ConfigureRequest) : Prop :=
  length (debugLines (Calls (run (AzurexProvider.Configure h req)))) = 1.

(** C2 as stated: [Configure] ends with an error diagnostic or with a token
    credential in the data it hands on. *)
Definition credentialOrError (h : AzurexProvider.Host)
    (req : AzurexProvider.ConfigureRequest) : Prop :=
  HasError (RespDiagnostics (run (AzurexProvider.Configure h req))) = true
  \/ exists d c,
       Data (run (AzurexProvider.Configure h req)) = Some d
       /\ AzurexProvider.IdentityCreds (AzurexProvider.ResourceData d) = Some c.

(** What [Configure] relies on [auth.NewAuthorizerFromCredentials] for: the
    library builds no authorizer from credentials that carry neither a client
    secret, nor a certificate path, nor an OIDC token. *)
Definition refusesEmpty (h : AzurexProvider.Host) : Prop :=
  forall c api,
    auth.ClientSecret c = "" ->
    auth.ClientCertificatePath c = "" ->
    auth.OIDCAssertionToken c = "" ->
    exists err, AzurexProvider.NewAuthorizerFromCredentials h c api = Err err.

(** [tflog] lines, which reach no service. *)
Definition isLog (c : Call.t) : bool :=
  match c with Call.tflog_Debug _ | Call.tflog_Trace _ => true | _ => false end.

(** The calls of a trace that leave the process. *)
Definition outbound (cs : list Call.t) : list Call.t :=
  List.filter (fun c => negb (isLog c)) cs.

Definition isReadFile (c : Call.t) : bool :=
  match c with Call.os_ReadFile _ => true | _ => false end.

Definition isAuthorizerCall (c : Call.t) : bool :=
  match c with Call.NewAuthorizerFromCredentials _ _ => true | _ => false end.

(** The tags parameter [applyTags] builds for a Go map. *)
Definition tagsParameter (tagMap : gmap string string) : armresources.TagsResource :=
  armresources.mkTagsResource
    (Some (armresources.mkTags (Some (SubscriptionTagsResource.toAzureTags tagMap)))).

(** ** Collections of diagnostics *)

Lemma Msg_eqb_eq (a b : Msg) : Msg_eqb a b = true <-> a = b.
Proof.
  revert b. induction a as [s | f x IHx | f x1 IH1 x2 IH2]; intros [t | g y | g y1 y2];
    cbn; try (split; discriminate).
  - rewrite String.eqb_eq. split; congruence.
  - rewrite andb_true_iff, String.eqb_eq, IHx.
    split; [intros [-> ->]; reflexivity | intros [= -> ->]; auto].
  - rewrite !andb_true_iff, String.eqb_eq, IH1, IH2.
    split; [intros [[-> ->] ->]; reflexivity | intros [= -> -> ->]; auto].
Qed.

Lemma Equal_eq (d other : Diagnostic) : Equal d other = true <-> d = other.
Proof.
  destruct d as [[] s m], other as [[] s' m']; unfold Equal; cbn;
    rewrite ?andb_true_iff, ?String.eqb_eq, ?Msg_eqb_eq;
    (split; [intros H; try discriminate H; destruct H as [-> ->]; reflexivity
            | intros [= -> ->]; auto]).
Qed.

Lemma Contains_In (diags : Diagnostics) (d : Diagnostic) :
  Contains diags d = true <-> In d diags.
Proof.
  unfold Contains. rewrite existsb_exists. split.
  - intros (x & Hin & Heq). apply Equal_eq in Heq. now subst.
  - intros Hin. exists d. split; [assumption | now apply Equal_eq].
Qed.

(** Appending keeps what was there and adds what is new, no more. *)
Lemma In_Append (diags new : Diagnostics) (d : Diagnostic) :
  In d (Diagnostics_Append diags new) <-> In d diags \/ In d new.
Proof.
  revert diags. induction new as [| x new IH]; intros diags; cbn.
  - tauto.
  - rewrite IH. destruct (Contains diags x) eqn:Hx.
    + apply Contains_In in Hx. split; [tauto |].
      intros [? | [<- | ?]]; tauto.
    + rewrite in_app_iff. cbn. tauto.
Qed.

Lemma HasError_In (diags : Diagnostics) :
  HasError diags = true <-> exists d, In d diags /\ isError d = true.
Proof. unfold HasError. apply existsb_exists. Qed.

Lemma HasError_app (a b : Diagnostics) :
  HasError (Diagnostics_Append a b) = HasError a || HasError b.
Proof.
  apply eq_true_iff_eq. rewrite orb_true_iff, !HasError_In. split.
  - intros (d & Hin & Herr). apply In_Append in Hin. destruct Hin; eauto.
  - intros [(d & Hin & Herr) | (d & Hin & Herr)];
      exists d; (split; [apply In_Append; tauto | assumption]).
Qed.

Lemma HasError_nil : HasError [] = false.
Proof. reflexivity. Qed.

(** What is already there is not added again. *)
Lemma Append_contained (diags new : Diagnostics) :
  (forall d, In d new -> In d diags) -> Diagnostics_Append diags new = diags.
Proof.
  revert diags. induction new as [| x new IH]; intros diags Hall; cbn.
  - reflexivity.
  - assert (Hx : Contains diags x = true) by (apply Contains_In, Hall; now left).
    rewrite Hx. apply IH. intros d Hd. apply Hall. now right.
Qed.

Lemma NoDup_Append (diags new : Diagnostics) :
  NoDup diags -> NoDup (Diagnostics_Append diags new).
Proof.
  revert diags. induction new as [| x new IH]; intros diags Hnodup; cbn.
  - assumption.
  - apply IH. destruct (Contains diags x) eqn:Hx; [assumption |].
    apply NoDup_app. split; [assumption | split; [| apply NoDup_singleton]].
    intros d Hd Hsingle. apply list_elem_of_In in Hd, Hsingle.
    destruct Hsingle as [<- | []].
    apply Contains_In in Hd. congruence.
Qed.

(** ** Proof steps *)

(** Unfolds the handler monad and reduces what the response records. *)
Ltac handler :=
  unfold SubscriptionTagsResource.applyTags, SubscriptionTagsResource.failOn;
  unfold orFail, AddError;
  unfold run, bind, Append, returnIfHasError, call, ret, return_, State_Set, newResp;
  cbn [fst snd Calls RespDiagnostics Data app];
  try match goal with
      | |- context [HasError (Diagnostics_Append _ _)] =>
          rewrite ?HasError_app, ?HasError_nil; cbn [orb]
      end.

(** Reduces what the response records; a test for errors becomes a test of
    the diagnostics that were appended. *)
Ltac reduce :=
  cbn [fst snd Calls RespDiagnostics Data app orb andb negb];
  try match goal with
      | |- context [HasError (Diagnostics_Append _ _)] =>
          rewrite ?HasError_app, ?HasError_nil; cbn [orb]
      end.

(** Unfolds [Configure] down to the response it builds. *)
Ltac configure :=
  unfold AzurexProvider.Configure, AzurexProvider.built, AzurexProvider.gotError;
  handler.

(** Splits on every outcome the goal still branches on. *)
Ltac outcomes :=
  repeat (reduce;
          match goal with
          | |- context [match ?x with _ => _ end] =>
              lazymatch x with
              | context [match _ with _ => _ end] => fail
              | _ => destruct x eqn:?
              end
          end);
  reduce.

(** Unfolds the resource's [Configure] down to the receiver it leaves. *)
Ltac setup :=
  unfold ResourceSetup.configured, ResourceSetup.Configure,
    subscriptions.NewSettingsClient, ResourceSetup.gotError;
  unfold orFail, AddError;
  unfold runFrom, bind, Append, modify, ret, return_;
  cbn [fst snd Calls RespDiagnostics Data app option_map].

(** Splits on the outcome of each SDK constructor the goal consults. *)
Ltac constructors sdk :=
  repeat (match goal with
          | |- context [ResourceSetup.arm_NewClient sdk ?a ?b ?c] =>
              destruct (ResourceSetup.arm_NewClient sdk a b c)
          | |- context [ResourceSetup.NewSubscriptionClient sdk ?c] =>
              destruct (ResourceSetup.NewSubscriptionClient sdk c)
          | |- context [ResourceSetup.NewTagsClient sdk ?a ?c] =>
              destruct (ResourceSetup.NewTagsClient sdk a c)
          end;
          cbn [fst snd Calls RespDiagnostics Data app option_map]).

(** Closes a goal about the diagnostics of a finished handler. *)
Ltac diagnosed :=
  rewrite ?HasError_app, ?HasError_nil in *;
  cbn [HasError existsb isError severity NewErrorDiagnostic orb] in *;
  rewrite ?orb_true_r, ?orb_false_r in *;
  try reflexivity; try congruence.

(** ** Properties *)

Lemma nonempty_true (s : string) : nonempty s = true <-> s <> "".
Proof. destruct s; cbn; split; congruence. Qed.

Lemma nonempty_false (s : string) : nonempty s = false <-> s = "".
Proof. destruct s; cbn; split; congruence. Qed.

(** *** The settings client *)

(** C8. [DisableTagInheritance] is [EnableTagInheritance(false)]: the two
    return the same outcome on every client, and the request both send is a
    PUT to the endpoint joined with the fixed [taginheritance] path, with
    [api-version] set to [2022-10-01-preview] in the query and the body
    [{kind: taginheritance, properties: {preferContainerTags: false}}]. *)
Theorem Disable_is_Enable_false (client : subscriptions.SettingsClient) :
  subscriptions.DisableTagInheritance client
    = subscriptions.EnableTagInheritance client false
  /\ subscriptions.createTagInheritanceRequest client false
     = match subscriptions.ParseURL (subscriptions.internal client)
               (subscriptions.JoinPaths (subscriptions.internal client)
                  (subscriptions.Endpoint (subscriptions.internal client))
                  "/providers/Microsoft.CostManagement/settings/taginheritance") with
       | Err err => Err err
       | Ok u =>
           Ok (subscriptions.mkRequest "PUT"
                 (subscriptions.mkURL (subscriptions.Location u)
                    (subscriptions.Encode (subscriptions.internal client)
                       (<["api-version" := ["2022-10-01-preview"]]>
                          (subscriptions.Query (subscriptions.internal client)
                             (subscriptions.RawQuery u)))))
                 (<["Content-Type" := ["application/json"]]>
                    (<["Accept" := ["application/json"]]> ∅))
                 (Some (subscriptions.JObject
                          (subscriptions.FCons "kind" (subscriptions.JString "taginheritance")
                          (subscriptions.FCons "properties"
                             (subscriptions.JObject
                                (subscriptions.FCons "preferContainerTags"
                                   (subscriptions.JBool false) subscriptions.FNil))
                           subscriptions.FNil)))))
       end.
Proof.
  split.
  - reflexivity.
  - unfold subscriptions.createTagInheritanceRequest, subscriptions.NewRequest.
    destruct (subscriptions.ParseURL _ _) as [u | err]; reflexivity.
Qed.

(** *** Read *)

(** When the state decodes, both reads succeed and the framework accepts
    the converted tags, [Read] makes its two calls and sets the state. *)
Lemma Read_completes
    (fw : SubscriptionTagsResource.Framework)
    (r : SubscriptionTagsResource.SubscriptionTagsResource)
    (req : SubscriptionTagsResource.ReadRequest)
    (tagsResponse : armresources.TagsResource)
    (tagInheritance : subscriptions.TagInheritanceResponse) :
  HasError (fst (SubscriptionTagsResource.Read_State_Get req)) = false ->
  SubscriptionTagsResource.GetAtScope (SubscriptionTagsResource.TagsClient_ r)
    (SubscriptionTagsResource.subscriptionScope
       (SubscriptionTagsResource.SubscriptionID r)) = Ok tagsResponse ->
  HasError (snd (SubscriptionTagsResource.MapValueFrom fw
                   (SubscriptionTagsResource.convertTags tagsResponse))) = false ->
  subscriptions.GetTagInheritance (SubscriptionTagsResource.SettingsClient r)
    = Ok tagInheritance ->
  run (SubscriptionTagsResource.Read fw r req)
  = mkResp
      [Call.GetAtScope
         (SubscriptionTagsResource.subscriptionScope
            (SubscriptionTagsResource.SubscriptionID r));
       Call.GetTagInheritance]
      (Diagnostics_Append
         (Diagnostics_Append [] (fst (SubscriptionTagsResource.Read_State_Get req)))
         (snd (SubscriptionTagsResource.MapValueFrom fw
                 (SubscriptionTagsResource.convertTags tagsResponse))))
      (Some (refreshed fw req tagsResponse tagInheritance)).
Proof.
  intros Hstate Htags Hmap Hinherit.
  unfold SubscriptionTagsResource.Read, refreshed. handler.
  rewrite Hstate. reduce.
  rewrite Htags. reduce.
  rewrite Hstate, Hmap. reduce.
  rewrite Hinherit. reduce.
  reflexivity.
Qed.

(** The loop of [Read] keeps the keys with a value and drops those whose
    value is nil. *)
Lemma toTfTags_lookup (tags : gmap string (option string)) (k : string) :
  SubscriptionTagsResource.toTfTags tags !! k = tags !! k ≫= id.
Proof.
  unfold SubscriptionTagsResource.toTfTags.
  revert k.
  apply (map_fold_weak_ind
           (fun (acc : gmap string string) (m : gmap string (option string)) =>
              forall k, acc !! k = m !! k ≫= id)).
  - intros k. now rewrite !lookup_empty.
  - intros i x m acc Hfresh IH k.
    destruct (decide (i = k)) as [-> | Hne].
    + rewrite lookup_insert_eq. destruct x as [s |]; cbn.
      * now rewrite lookup_insert_eq.
      * now rewrite IH, Hfresh.
    + rewrite (lookup_insert_ne m) by assumption.
      destruct x as [s |]; [rewrite lookup_insert_ne by assumption |]; apply IH.
Qed.

Lemma convertTags_lookup (tagsResponse : armresources.TagsResource) (k v : string) :
  SubscriptionTagsResource.convertTags tagsResponse !! k = Some v
  <-> exists properties tags,
        armresources.Properties tagsResponse = Some properties
        /\ armresources.TagsMap properties = Some tags
        /\ tags !! k = Some (Some v).
Proof.
  unfold SubscriptionTagsResource.convertTags.
  destruct (armresources.Properties tagsResponse) as [properties |].
  - destruct (armresources.TagsMap properties) as [tags |] eqn:Htags.
    + rewrite toTfTags_lookup. split.
      * intros H. exists properties, tags. repeat split; try assumption.
        destruct (tags !! k) as [[s |] |]; cbn in H; congruence.
      * intros (p & t & Hp & Ht & Hk). injection Hp as <-.
        rewrite Htags in Ht. injection Ht as <-. now rewrite Hk.
    + rewrite lookup_empty. split; [discriminate |].
      intros (p & t & Hp & Ht & _). injection Hp as <-. congruence.
  - rewrite lookup_empty. split; [discriminate |].
    intros (p & t & Hp & _). discriminate.
Qed.

(** C5. After a successful [GetTagInheritance] in [Read]: a response with a
    non-empty identifier sets [inherit_tags] to true and [prefer_containers]
    to the server's [preferContainerTags]; a response with an empty
    identifier sets [inherit_tags] to false and leaves [prefer_containers]
    as the prior state had it. *)
Theorem Read_inheritance
    (fw : SubscriptionTagsResource.Framework)
    (r : SubscriptionTagsResource.SubscriptionTagsResource)
    (req : SubscriptionTagsResource.ReadRequest)
    (tagsResponse : armresources.TagsResource)
    (tagInheritance : subscriptions.TagInheritanceResponse) :
  HasError (fst (SubscriptionTagsResource.Read_State_Get req)) = false ->
  SubscriptionTagsResource.GetAtScope (SubscriptionTagsResource.TagsClient_ r)
    (SubscriptionTagsResource.subscriptionScope
       (SubscriptionTagsResource.SubscriptionID r)) = Ok tagsResponse ->
  HasError (snd (SubscriptionTagsResource.MapValueFrom fw
                   (SubscriptionTagsResource.convertTags tagsResponse))) = false ->
  subscriptions.GetTagInheritance (SubscriptionTagsResource.SettingsClient r)
    = Ok tagInheritance ->
  exists st,
    Data (run (SubscriptionTagsResource.Read fw r req)) = Some st
    /\ (subscriptions.Id tagInheritance <> "" ->
        SubscriptionTagsResource.InheritTags st = types.BoolValue true
        /\ SubscriptionTagsResource.PreferContainers st
           = types.BoolValue
               (subscriptions.PreferContainerTags
                  (subscriptions.Properties tagInheritance)))
    /\ (subscriptions.Id tagInheritance = "" ->
        SubscriptionTagsResource.InheritTags st = types.BoolValue false
        /\ SubscriptionTagsResource.PreferContainers st
           = SubscriptionTagsResource.PreferContainers
               (snd (SubscriptionTagsResource.Read_State_Get req))).
Proof.
  intros Hstate Htags Hmap Hinherit.
  rewrite (Read_completes fw r req tagsResponse tagInheritance) by assumption.
  eexists. split; [reflexivity |]. unfold refreshed.
  split; intros Hid.
  - apply nonempty_true in Hid. rewrite Hid. split; reflexivity.
  - apply nonempty_false in Hid. rewrite Hid. split; reflexivity.
Qed.

Lemma Read_inheritance_witness :
  exists st,
    Data (run (SubscriptionTagsResource.Read Sample.framework
                 (Sample.resource Sample.unset)
                 (SubscriptionTagsResource.mkReadRequest
                    ([], Sample.declared true true false)))) = Some st
    /\ (subscriptions.Id Sample.unset <> "" ->
        SubscriptionTagsResource.InheritTags st = types.BoolValue true
        /\ SubscriptionTagsResource.PreferContainers st
           = types.BoolValue
               (subscriptions.PreferContainerTags
                  (subscriptions.Properties Sample.unset)))
    /\ (subscriptions.Id Sample.unset = "" ->
        SubscriptionTagsResource.InheritTags st = types.BoolValue false
        /\ SubscriptionTagsResource.PreferContainers st
           = SubscriptionTagsResource.PreferContainers
               (snd (SubscriptionTagsResource.Read_State_Get
                       (SubscriptionTagsResource.mkReadRequest
                          ([], Sample.declared true true false))))).
Proof.
  apply (Read_inheritance Sample.framework (Sample.resource Sample.unset)
           (SubscriptionTagsResource.mkReadRequest ([], Sample.declared true true false))
           Sample.azureTags Sample.unset); reflexivity.
Defined.

(** C9. In [Read], the tag mapping built from the response of Azure holds
    exactly the keys whose value is not null, each with the string behind
    the pointer; a null-valued tag is skipped, and with it in the response
    [Read] still completes and records that mapping. *)
Theorem Read_tags
    (fw : SubscriptionTagsResource.Framework)
    (r : SubscriptionTagsResource.SubscriptionTagsResource)
    (req : SubscriptionTagsResource.ReadRequest)
    (tagsResponse : armresources.TagsResource)
    (tagInheritance : subscriptions.TagInheritanceResponse) :
  HasError (fst (SubscriptionTagsResource.Read_State_Get req)) = false ->
  SubscriptionTagsResource.GetAtScope (SubscriptionTagsResource.TagsClient_ r)
    (SubscriptionTagsResource.subscriptionScope
       (SubscriptionTagsResource.SubscriptionID r)) = Ok tagsResponse ->
  HasError (snd (SubscriptionTagsResource.MapValueFrom fw
                   (SubscriptionTagsResource.convertTags tagsResponse))) = false ->
  subscriptions.GetTagInheritance (SubscriptionTagsResource.SettingsClient r)
    = Ok tagInheritance ->
  exists (tfTags : gmap string string) st,
    (forall k v,
        tfTags !! k = Some v
        <-> exists properties tags,
              armresources.Properties tagsResponse = Some properties
              /\ armresources.TagsMap properties = Some tags
              /\ tags !! k = Some (Some v))
    /\ Data (run (SubscriptionTagsResource.Read fw r req)) = Some st
    /\ SubscriptionTagsResource.Tags st
       = fst (SubscriptionTagsResource.MapValueFrom fw tfTags)
    /\ HasError (RespDiagnostics (run (SubscriptionTagsResource.Read fw r req))) = false.
Proof.
  intros Hstate Htags Hmap Hinherit.
  rewrite (Read_completes fw r req tagsResponse tagInheritance) by assumption.
  exists (SubscriptionTagsResource.convertTags tagsResponse). eexists.
  split; [apply convertTags_lookup |].
  split; [reflexivity |]. reduce. split.
  - unfold refreshed. destruct (nonempty _); reflexivity.
  - now rewrite ?HasError_app, ?HasError_nil, Hstate, Hmap.
Qed.

Lemma Read_tags_witness :
  exists (tfTags : gmap string string) st,
    (forall k v,
        tfTags !! k = Some v
        <-> exists properties tags,
              armresources.Properties Sample.azureTags = Some properties
              /\ armresources.TagsMap properties = Some tags
              /\ tags !! k = Some (Some v))
    /\ Data (run (SubscriptionTagsResource.Read Sample.framework
                    (Sample.resource Sample.configured)
                    (SubscriptionTagsResource.mkReadRequest
                       ([], Sample.declared false true false)))) = Some st
    /\ SubscriptionTagsResource.Tags st
       = fst (SubscriptionTagsResource.MapValueFrom Sample.framework tfTags)
    /\ HasError (RespDiagnostics
                   (run (SubscriptionTagsResource.Read Sample.framework
                           (Sample.resource Sample.configured)
                           (SubscriptionTagsResource.mkReadRequest
                              ([], Sample.declared false true false))))) = false.
Proof.
  apply (Read_tags Sample.framework (Sample.resource Sample.configured)
           (SubscriptionTagsResource.mkReadRequest ([], Sample.declared false true false))
           Sample.azureTags Sample.configured); reflexivity.
Defined.

(** *** Create, Update and Delete *)

Lemma toAzureTags_empty : SubscriptionTagsResource.toAzureTags ∅ = ∅.
Proof. unfold SubscriptionTagsResource.toAzureTags. apply map_fold_empty. Qed.

(** [applyTags] hands Azure every declared tag, each behind a pointer. *)
Lemma toAzureTags_lookup (tagMap : gmap string string) (k : string) :
  SubscriptionTagsResource.toAzureTags tagMap !! k = Some <$> (tagMap !! k).
Proof.
  unfold SubscriptionTagsResource.toAzureTags. revert k.
  apply (map_fold_weak_ind
           (fun (acc : gmap string (option string)) (m : gmap string string) =>
              forall k, acc !! k = Some <$> (m !! k))).
  - intros k. now rewrite !lookup_empty.
  - intros i x m acc _ IH k.
    destruct (decide (i = k)) as [-> | Hne].
    + now rewrite !lookup_insert_eq.
    + rewrite !lookup_insert_ne by assumption. apply IH.
Qed.

(** C10. In [Create] and in [Update], when [EnableTagInheritance] succeeds:
    a response with an empty identifier leaves the recorded state equal to
    the declared one, [inherit_tags] and [prefer_containers] included; the
    server's [preferContainerTags] reaches the state when the identifier is
    not empty. *)
Theorem Enable_answer_in_state
    (fw : SubscriptionTagsResource.Framework)
    (r : SubscriptionTagsResource.SubscriptionTagsResource)
    (creq : SubscriptionTagsResource.CreateRequest)
    (ureq : SubscriptionTagsResource.UpdateRequest)
    (tagInheritance : subscriptions.TagInheritanceResponse) :
  let data := snd (SubscriptionTagsResource.Create_Plan_Get creq) in
  SubscriptionTagsResource.Update_Plan_Get ureq
    = SubscriptionTagsResource.Create_Plan_Get creq ->
  HasError (fst (SubscriptionTagsResource.Create_Plan_Get creq)) = false ->
  HasError (fst (SubscriptionTagsResource.Update_State_Get ureq)) = false ->
  tagsApplied fw r data ->
  types.ValueBool (SubscriptionTagsResource.InheritTags data) = true ->
  subscriptions.EnableTagInheritance (SubscriptionTagsResource.SettingsClient r)
    (types.ValueBool (SubscriptionTagsResource.PreferContainers data))
    = Ok tagInheritance ->
  exists created updated,
    Data (run (SubscriptionTagsResource.Create fw r creq)) = Some created
    /\ Data (run (SubscriptionTagsResource.Update fw r ureq)) = Some updated
    /\ (subscriptions.Id tagInheritance = "" -> created = data /\ updated = data)
    /\ (subscriptions.Id tagInheritance <> "" ->
        let server :=
          types.BoolValue
            (subscriptions.PreferContainerTags
               (subscriptions.Properties tagInheritance)) in
        SubscriptionTagsResource.InheritTags created = types.BoolValue true
        /\ SubscriptionTagsResource.PreferContainers created = server
        /\ SubscriptionTagsResource.InheritTags updated = types.BoolValue true
        /\ SubscriptionTagsResource.PreferContainers updated = server).
Proof.
  intros data Hsame Hplan Hstate [Helems Hwrite] Hinherit Henable.
  subst data.
  unfold SubscriptionTagsResource.Create, SubscriptionTagsResource.Update.
  rewrite Hsame. handler.
  repeat (first [ rewrite HasError_app | rewrite Hplan | rewrite Hstate
                | rewrite Helems | rewrite Hwrite | rewrite Hinherit
                | rewrite Henable ]; reduce).
  destruct (nonempty (subscriptions.Id tagInheritance)) eqn:Hid; reduce.
  - do 2 eexists. split; [reflexivity |]. split; [reflexivity |]. split.
    + intros Hempty. apply nonempty_false in Hempty. congruence.
    + intros _. cbn. repeat split; reflexivity.
  - do 2 eexists. split; [reflexivity |]. split; [reflexivity |]. split.
    + intros _. split; reflexivity.
    + intros Hfull. apply nonempty_true in Hfull. congruence.
Qed.

Lemma Enable_answer_in_state_witness :
  exists created updated,
    Data (run (SubscriptionTagsResource.Create Sample.framework
                 (Sample.resource Sample.unset)
                 (SubscriptionTagsResource.mkCreateRequest
                    ([], Sample.declared true true false)))) = Some created
    /\ Data (run (SubscriptionTagsResource.Update Sample.framework
                    (Sample.resource Sample.unset)
                    (SubscriptionTagsResource.mkUpdateRequest
                       ([], Sample.declared true true false)
                       ([], Sample.declared false true false)))) = Some updated
    /\ (subscriptions.Id Sample.unset = "" ->
        created = Sample.declared true true false
        /\ updated = Sample.declared true true false)
    /\ (subscriptions.Id Sample.unset <> "" ->
        SubscriptionTagsResource.InheritTags created = types.BoolValue true
        /\ SubscriptionTagsResource.PreferContainers created = types.BoolValue true
        /\ SubscriptionTagsResource.InheritTags updated = types.BoolValue true
        /\ SubscriptionTagsResource.PreferContainers updated = types.BoolValue true).
Proof.
  apply (Enable_answer_in_state Sample.framework (Sample.resource Sample.unset)
           (SubscriptionTagsResource.mkCreateRequest ([], Sample.declared true true false))
           (SubscriptionTagsResource.mkUpdateRequest
              ([], Sample.declared true true false)
              ([], Sample.declared false true false))
           Sample.unset); try reflexivity.
  split; reflexivity.
Defined.

(** C6. In an [Update] that has applied the declared tags: going from
    [inherit_tags] true to false issues exactly one [DisableTagInheritance]
    call and no enable call, and staying at false issues no call about
    inheritance at all. *)
Theorem Update_inheritance_calls
    (fw : SubscriptionTagsResource.Framework)
    (r : SubscriptionTagsResource.SubscriptionTagsResource)
    (req : SubscriptionTagsResource.UpdateRequest) :
  let data := snd (SubscriptionTagsResource.Update_Plan_Get req) in
  let oldData := snd (SubscriptionTagsResource.Update_State_Get req) in
  let calls := Calls (run (SubscriptionTagsResource.Update fw r req)) in
  HasError (fst (SubscriptionTagsResource.Update_Plan_Get req)) = false ->
  HasError (fst (SubscriptionTagsResource.Update_State_Get req)) = false ->
  tagsApplied fw r data ->
  types.ValueBool (SubscriptionTagsResource.InheritTags data) = false ->
  (types.ValueBool (SubscriptionTagsResource.InheritTags oldData) = true ->
   count isDisable calls = 1 /\ count isEnable calls = 0)
  /\ (types.ValueBool (SubscriptionTagsResource.InheritTags oldData) = false ->
      count isDisable calls = 0 /\ count isEnable calls = 0
      /\ count isGetInheritance calls = 0).
Proof.
  intros data oldData calls Hplan Hstate [Helems Hwrite] Hnew.
  subst data oldData calls.
  unfold SubscriptionTagsResource.Update. handler.
  repeat (first [ rewrite HasError_app | rewrite Hplan | rewrite Hstate
                | rewrite Helems | rewrite Hwrite | rewrite Hnew ]; reduce).
  split; intros Hold; rewrite Hold; reduce.
  - destruct (subscriptions.DisableTagInheritance _); split; reflexivity.
  - repeat split; reflexivity.
Qed.

Lemma Update_inheritance_calls_witness :
  let req :=
    SubscriptionTagsResource.mkUpdateRequest
      ([], Sample.declared false true false) ([], Sample.declared true true false) in
  let calls :=
    Calls (run (SubscriptionTagsResource.Update Sample.framework
                  (Sample.resource Sample.configured) req)) in
  (types.ValueBool (types.BoolValue true) = true ->
   count isDisable calls = 1 /\ count isEnable calls = 0)
  /\ (types.ValueBool (types.BoolValue true) = false ->
      count isDisable calls = 0 /\ count isEnable calls = 0
      /\ count isGetInheritance calls = 0).
Proof.
  apply (Update_inheritance_calls Sample.framework (Sample.resource Sample.configured)
           (SubscriptionTagsResource.mkUpdateRequest
              ([], Sample.declared false true false)
              ([], Sample.declared true true false)));
    try reflexivity.
  split; reflexivity.
Defined.

(** C7. In a [Delete] whose state decodes: with [ondelete_remove_tags]
    false no call writes tags; with it true the one tag write applies the
    empty mapping at the scope of the subscription; and, unless that write
    failed, [DisableTagInheritance] is called exactly when both
    [ondelete_remove_inherit_tags] and [inherit_tags] of the state are
    true. *)
Theorem Delete_calls
    (r : SubscriptionTagsResource.SubscriptionTagsResource)
    (req : SubscriptionTagsResource.DeleteRequest) :
  let data := snd (SubscriptionTagsResource.Delete_State_Get req) in
  let calls := Calls (run (SubscriptionTagsResource.Delete r req)) in
  let cleared :=
    armresources.mkTagsResource (Some (armresources.mkTags (Some ∅))) in
  let scope :=
    SubscriptionTagsResource.subscriptionScope
      (SubscriptionTagsResource.SubscriptionID r) in
  HasError (fst (SubscriptionTagsResource.Delete_State_Get req)) = false ->
  (types.ValueBool (SubscriptionTagsResource.RemoveTags data) = true ->
   SubscriptionTagsResource.CreateOrUpdateAtScope
     (SubscriptionTagsResource.TagsClient_ r) scope cleared = None) ->
  (types.ValueBool (SubscriptionTagsResource.RemoveTags data) = false ->
   count isTagWrite calls = 0)
  /\ (types.ValueBool (SubscriptionTagsResource.RemoveTags data) = true ->
      List.filter isTagWrite calls = [Call.CreateOrUpdateAtScope scope cleared])
  /\ (In Call.DisableTagInheritance calls
      <-> types.ValueBool (SubscriptionTagsResource.RemoteInheritTags data) = true
          /\ types.ValueBool (SubscriptionTagsResource.InheritTags data) = true)
  /\ count isDisable calls <= 1.
Proof.
  intros data calls cleared scope Hstate Hwrite.
  subst data calls cleared scope.
  unfold SubscriptionTagsResource.Delete. handler.
  rewrite toAzureTags_empty in *.
  rewrite Hstate. reduce.
  destruct (types.ValueBool (SubscriptionTagsResource.RemoveTags _)) eqn:Hremove;
    reduce.
  - rewrite (Hwrite eq_refl). reduce.
    destruct (types.ValueBool (SubscriptionTagsResource.RemoteInheritTags _));
      destruct (types.ValueBool (SubscriptionTagsResource.InheritTags _)); reduce;
      try destruct (subscriptions.DisableTagInheritance _); reduce;
      (split; [discriminate |]); (split; [reflexivity |]);
      (split; [| cbn; lia]); cbn; split; intuition congruence.
  - destruct (types.ValueBool (SubscriptionTagsResource.RemoteInheritTags _));
      destruct (types.ValueBool (SubscriptionTagsResource.InheritTags _)); reduce;
      try destruct (subscriptions.DisableTagInheritance _); reduce;
      (split; [reflexivity |]); (split; [discriminate |]);
      (split; [| cbn; lia]); cbn; split; intuition congruence.
Qed.

Lemma Delete_calls_witness :
  let req :=
    SubscriptionTagsResource.mkDeleteRequest ([], Sample.declared true true true) in
  let calls :=
    Calls (run (SubscriptionTagsResource.Delete (Sample.resource Sample.configured) req)) in
  let cleared :=
    armresources.mkTagsResource (Some (armresources.mkTags (Some ∅))) in
  let scope := SubscriptionTagsResource.subscriptionScope Sample.subscription in
  (true = false -> count isTagWrite calls = 0)
  /\ (true = true ->
      List.filter isTagWrite calls = [Call.CreateOrUpdateAtScope scope cleared])
  /\ (In Call.DisableTagInheritance calls <-> true = true /\ true = true)
  /\ count isDisable calls <= 1.
Proof.
  apply (Delete_calls (Sample.resource Sample.configured)
           (SubscriptionTagsResource.mkDeleteRequest ([], Sample.declared true true true)));
    reflexivity.
Defined.

(** *** The provider's Configure *)

(** C1, where the code departs from it.  The provider schema declares
    [client_id] and [client_secret], yet neither reaches [Configure]'s
    result: two configurations that agree on [subscription_id] and
    [tenant_id] are configured alike on every host.  On a host where only
    [ARM_CLIENT_SECRET] is set, the credential is built for the client ID
    of the environment, the empty string, and not for the declared
    [cfg-client]. *)
Theorem Configure_ignores_declared_client :
  is_Some (AzurexProvider.Schema !! "client_id")
  /\ is_Some (AzurexProvider.Schema !! "client_secret")
  /\ (forall (h : AzurexProvider.Host) (diags : Diagnostics)
          (subscriptionID tenantID clientID clientSecret clientID' clientSecret'
             : types.String),
      run (AzurexProvider.Configure h
             (AzurexProvider.mkConfigureRequest
                (diags,
                 AzurexProvider.mkModel subscriptionID tenantID clientID clientSecret)))
      = run (AzurexProvider.Configure h
               (AzurexProvider.mkConfigureRequest
                  (diags,
                   AzurexProvider.mkModel subscriptionID tenantID clientID'
                     clientSecret'))))
  /\ List.filter isCredentialConstructor
       (Calls (run (AzurexProvider.Configure
                      (Sample.host [("ARM_CLIENT_SECRET", "env-secret")] Sample.accepted)
                      Sample.providerConfig)))
     = [Call.NewClientSecretCredential "cfg-tenant" "" "env-secret"]
  /\ List.filter isCredentialConstructor
       (Calls (run (AzurexProvider.Configure (Sample.host [] Sample.accepted)
                      Sample.providerConfig)))
     = [].
Proof.
  split; [| split; [| split; [| split]]].
  - vm_compute. eauto.
  - vm_compute. eauto.
  - intros. configure.
    destruct (nonempty (AzurexProvider.Getenv h "ARM_SUBSCRIPTION_ID"));
      destruct (nonempty (AzurexProvider.Getenv h "ARM_TENANT_ID")); reflexivity.
  - vm_compute. reflexivity.
  - vm_compute. reflexivity.
Qed.

Lemma HasError_twice (ds : Diagnostics) : HasError ds || HasError ds = HasError ds.
Proof. now destruct (HasError ds). Qed.

(** With none of the three variables set, [Configure] picks no
    authentication type and calls no credential constructor. *)
Lemma no_mode_in_bare_environment :
  ~ (forall h req, selectsOneMode h req).
Proof.
  intros Hone.
  specialize (Hone (Sample.host [] Sample.refused) Sample.providerConfig).
  vm_compute in Hone. discriminate.
Qed.

(** C3, amended.  Once the configuration has decoded, [Configure] goes by
    the first non-empty variable among [ARM_CLIENT_SECRET],
    [ARM_CLIENT_CERTIFICATE_FILE] and [AZURE_FEDERATED_TOKEN_FILE], in that
    order: it logs that one authentication type and calls at most that
    type's credential constructor (the certificate and token types after
    reading their file).  With the three variables empty it picks none. *)
Theorem Configure_mode_priority
    (h : AzurexProvider.Host) (req : AzurexProvider.ConfigureRequest)
    (env : environments.Environment) :
  let secret := AzurexProvider.Getenv h "ARM_CLIENT_SECRET" in
  let certificate := AzurexProvider.Getenv h "ARM_CLIENT_CERTIFICATE_FILE" in
  let token := AzurexProvider.Getenv h "AZURE_FEDERATED_TOKEN_FILE" in
  let tenant := effectiveTenant h req in
  let calls := Calls (run (AzurexProvider.Configure h req)) in
  HasError (fst (AzurexProvider.Config_Get req)) = false ->
  AzurexProvider.FromName h "global" = Ok env ->
  (secret <> "" ->
   debugLines calls = ["authentication type: client secret"]
   /\ List.filter isCredentialConstructor calls
      = [Call.NewClientSecretCredential tenant
           (AzurexProvider.Getenv h "ARM_CLIENT_ID") secret])
  /\ (secret = "" -> certificate <> "" ->
      debugLines calls = ["authentication type: client certificate"]
      /\ List.filter isCredentialConstructor calls
         = match AzurexProvider.ReadFile h certificate with
           | Ok certData =>
               match AzurexProvider.ParseCertificates h certData with
               | Ok (certs, pkey) =>
                   [Call.NewClientCertificateCredential tenant
                      (AzurexProvider.Getenv h "ARM_CLIENT_ID") certs pkey]
               | Err _ => []
               end
           | Err _ => []
           end)
  /\ (secret = "" -> certificate = "" -> token <> "" ->
      debugLines calls = ["authentication type: federated token"]
      /\ List.filter isCredentialConstructor calls
         = match AzurexProvider.ReadFile h token with
           | Ok _ =>
               [Call.NewWorkloadIdentityCredential tenant
                  (AzurexProvider.Getenv h "AZURE_CLIENT_ID") token]
           | Err _ => []
           end)
  /\ (secret = "" -> certificate = "" -> token = "" ->
      debugLines calls = [] /\ List.filter isCredentialConstructor calls = []).
Proof.
  intros secret certificate token tenant calls Hconfig Henv.
  subst secret certificate token tenant calls. unfold effectiveTenant.
  configure.
  rewrite Hconfig. reduce. rewrite HasError_twice, Hconfig. reduce.
  rewrite Henv. reduce.
  repeat split.
  all: repeat match goal with
         | H : _ <> "" |- _ => apply nonempty_true in H; rewrite H
         | H : _ = "" |- _ => apply nonempty_false in H; rewrite H
         end.
  all: outcomes; reflexivity.
Qed.

Lemma Configure_mode_priority_witness :
  let h := Sample.host [("ARM_CLIENT_CERTIFICATE_FILE", "/etc/azurex/client.pem");
                        ("AZURE_FEDERATED_TOKEN_FILE", "/var/run/token")]
             Sample.accepted in
  debugLines (Calls (run (AzurexProvider.Configure h Sample.providerConfig)))
  = ["authentication type: client certificate"].
Proof.
  refine (proj1 (proj1 (proj2
    (Configure_mode_priority
       (Sample.host [("ARM_CLIENT_CERTIFICATE_FILE", "/etc/azurex/client.pem");
                     ("AZURE_FEDERATED_TOKEN_FILE", "/var/run/token")]
          Sample.accepted)
       Sample.providerConfig
       (environments.mkEnvironment "global"
          (environments.mkApi "MicrosoftGraph")
          (environments.mkApi "ResourceManager"))
       eq_refl eq_refl)) eq_refl _)).
  discriminate.
Defined.

(** C2.  On a host whose authorizer constructor refuses credentials without
    a secret, a certificate path and a token, as the library's does,
    [Configure] ends with an error diagnostic or with a token credential in
    the data it hands on, and with an error exactly when it hands on
    nothing.  In particular it reports an error when none of
    [ARM_CLIENT_SECRET], [ARM_CLIENT_CERTIFICATE_FILE] and
    [AZURE_FEDERATED_TOKEN_FILE] is set, and when the certificate or token
    file it has to read cannot be read. *)
Theorem Configure_credential_or_error
    (h : AzurexProvider.Host) (req : AzurexProvider.ConfigureRequest) :
  let secret := AzurexProvider.Getenv h "ARM_CLIENT_SECRET" in
  let certificate := AzurexProvider.Getenv h "ARM_CLIENT_CERTIFICATE_FILE" in
  let token := AzurexProvider.Getenv h "AZURE_FEDERATED_TOKEN_FILE" in
  let out := run (AzurexProvider.Configure h req) in
  refusesEmpty h ->
  credentialOrError h req
  /\ (HasError (RespDiagnostics out) = true <-> Data out = None)
  /\ (secret = "" -> certificate = "" -> token = "" ->
      HasError (RespDiagnostics out) = true)
  /\ (forall err,
        secret = "" ->
        (certificate <> "" /\ AzurexProvider.ReadFile h certificate = Err err)
        \/ (certificate = "" /\ token <> ""
            /\ AzurexProvider.ReadFile h token = Err err) ->
        HasError (RespDiagnostics out) = true).
Proof.
  intros secret certificate token out Hguard.
  assert (Hiff : HasError (RespDiagnostics out) = true <-> Data out = None).
  { subst out. configure.
    outcomes; split; intros H; try discriminate; try reflexivity; diagnosed. }
  assert (Hbare : secret = "" -> certificate = "" -> token = "" ->
                  HasError (RespDiagnostics out) = true).
  { subst secret certificate token out. intros Hsecret Hcertificate Htoken.
    apply nonempty_false in Hsecret, Hcertificate, Htoken.
    configure. rewrite Hsecret, Hcertificate, Htoken.
    destruct (HasError (fst (AzurexProvider.Config_Get req))) eqn:Hconfig; reduce;
      [assumption |].
    rewrite Hconfig. reduce.
    destruct (AzurexProvider.FromName h "global") as [env | e]; reduce;
      [| diagnosed].
    match goal with
    | |- context [AzurexProvider.NewAuthorizerFromCredentials h ?c ?api] =>
        destruct (Hguard c api eq_refl eq_refl eq_refl) as [err Hrefused];
        rewrite Hrefused
    end.
    reduce. diagnosed. }
  assert (Hset : secret <> "" \/ certificate <> "" \/ token <> "" ->
                 forall d, Data out = Some d ->
                   exists c,
                     AzurexProvider.IdentityCreds (AzurexProvider.ResourceData d)
                     = Some c).
  { subst secret certificate token out. intros Hany d. configure.
    destruct (nonempty (AzurexProvider.Getenv h "ARM_CLIENT_SECRET")) eqn:Hsecret;
      [| destruct (nonempty (AzurexProvider.Getenv h "ARM_CLIENT_CERTIFICATE_FILE"))
           eqn:Hcertificate;
         [| destruct (nonempty (AzurexProvider.Getenv h "AZURE_FEDERATED_TOKEN_FILE"))
              eqn:Htoken ] ].
    4: { apply nonempty_false in Hsecret, Hcertificate, Htoken.
         destruct Hany as [? | [? | ?]]; congruence. }
    all: outcomes; intros Hdata; try discriminate;
      injection Hdata as <-; eexists; reflexivity. }
  split; [| split; [exact Hiff | split; [exact Hbare |]]].
  - unfold credentialOrError. fold out.
    destruct (Data out) as [d |] eqn:Hdata; [| left; now apply Hiff].
    destruct (nonempty secret) eqn:Hsecret;
      [| destruct (nonempty certificate) eqn:Hcertificate;
         [| destruct (nonempty token) eqn:Htoken ] ].
    4: { apply nonempty_false in Hsecret, Hcertificate, Htoken.
         apply Hiff in Hbare; [discriminate | assumption ..]. }
    all: right;
      destruct (Hset ltac:(rewrite <- !nonempty_true; tauto) d eq_refl) as [c Hc];
      eauto.
  - subst secret certificate token out. intros err Hsecret Hfile. configure.
    destruct (HasError (fst (AzurexProvider.Config_Get req))) eqn:Hconfig; reduce;
      [assumption |].
    rewrite Hconfig. reduce.
    destruct (AzurexProvider.FromName h "global") as [env | e]; reduce;
      [| diagnosed].
    apply nonempty_false in Hsecret. rewrite Hsecret.
    destruct Hfile as [[Hcertificate Hread] | (Hcertificate & Htoken & Hread)].
    + apply nonempty_true in Hcertificate. rewrite Hcertificate, Hread. reduce.
      diagnosed.
    + apply nonempty_false in Hcertificate. apply nonempty_true in Htoken.
      rewrite Hcertificate, Htoken, Hread. reduce. diagnosed.
Qed.

Lemma Configure_credential_or_error_witness :
  let out := run (AzurexProvider.Configure (Sample.guarded []) Sample.providerConfig) in
  credentialOrError (Sample.guarded []) Sample.providerConfig
  /\ (HasError (RespDiagnostics out) = true <-> Data out = None)
  /\ HasError (RespDiagnostics out) = true.
Proof.
  assert (Hguard : refusesEmpty (Sample.guarded [])).
  { intros c api Hsecret Hcertificate Htoken. cbn.
    rewrite Hsecret, Hcertificate, Htoken. eexists. reflexivity. }
  destruct (Configure_credential_or_error (Sample.guarded []) Sample.providerConfig
              Hguard) as (Hclaim & Hiff & Hbare & _).
  split; [exact Hclaim | split; [exact Hiff |]].
  apply Hbare; reflexivity.
Defined.

(** The subscription [Configure] hands on: [ARM_SUBSCRIPTION_ID] when it is
    set, the declared [subscription_id] otherwise. *)
Theorem Configure_subscription_override
    (h : AzurexProvider.Host) (req : AzurexProvider.ConfigureRequest)
    (d : AzurexProvider.ConfigureData) :
  Data (run (AzurexProvider.Configure h req)) = Some d ->
  AzurexProvider.ctxSubscriptionID (AzurexProvider.ResourceData d)
  = if nonempty (AzurexProvider.Getenv h "ARM_SUBSCRIPTION_ID")
    then AzurexProvider.Getenv h "ARM_SUBSCRIPTION_ID"
    else types.ValueString
           (AzurexProvider.SubscriptionID (snd (AzurexProvider.Config_Get req))).
Proof.
  configure.
  outcomes; intros Hdata; try discriminate; injection Hdata as <-; reflexivity.
Qed.

Lemma Configure_subscription_override_witness :
  AzurexProvider.ctxSubscriptionID
    (AzurexProvider.ResourceData
       (let ctx :=
          AzurexProvider.mkContext "env-subscription"
            (Some (autorest.AutorestAuthorizer (auth.mkAuthorizer 0)))
            (Some (autorest.AutorestAuthorizer (auth.mkAuthorizer 0)))
            None None None in
        AzurexProvider.mkConfigureData ctx ctx))
  = "env-subscription".
Proof.
  exact (Configure_subscription_override
           (Sample.host [("ARM_SUBSCRIPTION_ID", "env-subscription")] Sample.accepted)
           Sample.providerConfig _ eq_refl).
Defined.

(** *** Import *)

(** C4, where the code departs from it.  The schema of [subscription_tags]
    declares no [subscription_id], so the write [ImportState] asks the
    framework for is refused: every import ends with an error diagnostic
    and no state. *)
Theorem ImportState_has_no_target (req : SubscriptionTagsResource.ImportStateRequest) :
  SubscriptionTagsResource.Schema !! "subscription_id" = None
  /\ HasError (RespDiagnostics (run (SubscriptionTagsResource.ImportState req))) = true
  /\ Data (run (SubscriptionTagsResource.ImportState req)) = None.
Proof.
  assert (Hschema : SubscriptionTagsResource.Schema !! "subscription_id" = None)
    by (vm_compute; reflexivity).
  split; [exact Hschema |].
  unfold SubscriptionTagsResource.ImportState,
    SubscriptionTagsResource.ImportStatePassthroughID.
  rewrite Hschema. split; reflexivity.
Qed.

(** ** Further properties *)

(** *** The settings client, beyond the claims *)

(** The query request and the write request of the settings client go to
    the same URL with the same query: they parse or fail together, and when
    they parse the GET has neither body nor content type, while the PUT
    adds the JSON body that carries the flag. *)
Theorem settings_requests_agree (client : subscriptions.SettingsClient)
    (preferContainerTags : bool) :
  match subscriptions.getTagInheritanceRequest client,
        subscriptions.createTagInheritanceRequest client preferContainerTags with
  | Ok get, Ok put =>
      subscriptions.Method get = "GET"
      /\ subscriptions.Method put = "PUT"
      /\ subscriptions.ReqURL get = subscriptions.ReqURL put
      /\ subscriptions.Body get = None
      /\ subscriptions.Header get !! "Content-Type" = None
      /\ subscriptions.Header get !! "Accept" = Some ["application/json"]
      /\ subscriptions.Header put !! "Accept" = Some ["application/json"]
      /\ subscriptions.Header put !! "Content-Type" = Some ["application/json"]
      /\ subscriptions.Body put
         = Some (subscriptions.jsonRequest
                   (subscriptions.mkTagInheritanceRequest "taginheritance"
                      (subscriptions.mkProperties preferContainerTags)))
  | Err e, Err e' => e = e'
  | _, _ => False
  end.
Proof.
  unfold subscriptions.getTagInheritanceRequest,
    subscriptions.createTagInheritanceRequest, subscriptions.NewRequest.
  destruct (subscriptions.ParseURL _ _) as [u | err]; [| reflexivity].
  cbn. repeat split.
Qed.

(** A failure of any stage of a settings call comes back as it is: an
    endpoint that is no URL fails the three calls with the parser's error,
    whatever the pipeline would answer, and an error of the pipeline or of
    the decoder is the error of the call. *)
Theorem settings_failures_unchanged (client : subscriptions.SettingsClient)
    (preferContainerTags : bool) (e : error) :
  let c := subscriptions.internal client in
  let endpoint :=
    subscriptions.JoinPaths c (subscriptions.Endpoint c)
      "/providers/Microsoft.CostManagement/settings/taginheritance" in
  (subscriptions.ParseURL c endpoint = Err e ->
   subscriptions.GetTagInheritance client = Err e
   /\ subscriptions.EnableTagInheritance client preferContainerTags = Err e
   /\ subscriptions.DisableTagInheritance client = Err e)
  /\ (forall req,
        subscriptions.createTagInheritanceRequest client preferContainerTags = Ok req ->
        (subscriptions.Do c req = Err e
         \/ exists resp,
              subscriptions.Do c req = Ok resp
              /\ subscriptions.UnmarshalAsJSON c resp = Err e) ->
        subscriptions.EnableTagInheritance client preferContainerTags = Err e)
  /\ (forall req,
        subscriptions.getTagInheritanceRequest client = Ok req ->
        (subscriptions.Do c req = Err e
         \/ exists resp,
              subscriptions.Do c req = Ok resp
              /\ subscriptions.UnmarshalAsJSON c resp = Err e) ->
        subscriptions.GetTagInheritance client = Err e).
Proof.
  intros c endpoint. subst c endpoint.
  split; [| split].
  - intros Hparse.
    unfold subscriptions.GetTagInheritance, subscriptions.EnableTagInheritance,
      subscriptions.DisableTagInheritance, subscriptions.getTagInheritanceRequest,
      subscriptions.createTagInheritanceRequest, subscriptions.NewRequest.
    rewrite Hparse. repeat split.
  - intros req Hreq Hfail. unfold subscriptions.EnableTagInheritance.
    rewrite Hreq. destruct Hfail as [Hdo | (resp & Hdo & Hdecode)]; rewrite Hdo.
    + reflexivity.
    + unfold subscriptions.handleTagInheritanceResponse. now rewrite Hdecode.
  - intros req Hreq Hfail. unfold subscriptions.GetTagInheritance.
    rewrite Hreq. destruct Hfail as [Hdo | (resp & Hdo & Hdecode)]; rewrite Hdo.
    + reflexivity.
    + unfold subscriptions.handleTagInheritanceResponse. now rewrite Hdecode.
Qed.

(** *** Tags on the way to Azure and back *)

Lemma toAzureTags_at (tagMap : gmap string string) (k : string) :
  SubscriptionTagsResource.toAzureTags tagMap !! k = Some <$> (tagMap !! k).
Proof.
  unfold SubscriptionTagsResource.toAzureTags. revert k.
  apply (map_fold_weak_ind
           (fun (acc : gmap string (option string)) (m : gmap string string) =>
              forall k, acc !! k = Some <$> (m !! k))).
  - intros k. now rewrite !lookup_empty.
  - intros i x m acc _ IH k.
    destruct (decide (i = k)) as [-> | Hne].
    + now rewrite !lookup_insert_eq.
    + rewrite !lookup_insert_ne by assumption. apply IH.
Qed.

(** What [applyTags] sends for a tag mapping, [Read] converts back to that
    mapping: no key is lost, added or changed on the way. *)
Theorem tags_round_trip (tagMap : gmap string string) :
  SubscriptionTagsResource.convertTags (tagsParameter tagMap) = tagMap.
Proof.
  unfold tagsParameter, SubscriptionTagsResource.convertTags. cbn.
  apply map_eq. intros k.
  rewrite toTfTags_lookup, toAzureTags_at.
  now destruct (tagMap !! k).
Qed.

(** The other way round, what [Read] keeps of Azure's tags and [applyTags]
    would send back is Azure's mapping without its null-valued keys. *)
Theorem tags_normalised (tags : gmap string (option string)) (k : string) :
  SubscriptionTagsResource.toAzureTags (SubscriptionTagsResource.toTfTags tags) !! k
  = match tags !! k with
    | Some (Some v) => Some (Some v)
    | _ => None
    end.
Proof.
  rewrite toAzureTags_at, toTfTags_lookup.
  now destruct (tags !! k) as [[v |] |].
Qed.

(** *** The lifecycle handlers, beyond the claims *)

(** [Read] only reads: whatever Azure and the framework answer, its calls
    are the tags query at the scope of the subscription, followed, when
    that succeeded and the tags converted, by the inheritance query; it
    never writes tags and never enables or disables inheritance. *)
Theorem Read_only_reads
    (fw : SubscriptionTagsResource.Framework)
    (r : SubscriptionTagsResource.SubscriptionTagsResource)
    (req : SubscriptionTagsResource.ReadRequest) :
  let calls := Calls (run (SubscriptionTagsResource.Read fw r req)) in
  let query :=
    Call.GetAtScope
      (SubscriptionTagsResource.subscriptionScope
         (SubscriptionTagsResource.SubscriptionID r)) in
  calls = [] \/ calls = [query] \/ calls = [query; Call.GetTagInheritance].
Proof.
  intros calls query. subst calls query.
  unfold SubscriptionTagsResource.Read. handler.
  outcomes; auto.
Qed.

(** [Create], [Read] and [Update] record a state exactly when they report
    no error, and [Delete] never records one. *)
Theorem state_iff_no_error
    (fw : SubscriptionTagsResource.Framework)
    (r : SubscriptionTagsResource.SubscriptionTagsResource)
    (creq : SubscriptionTagsResource.CreateRequest)
    (rreq : SubscriptionTagsResource.ReadRequest)
    (ureq : SubscriptionTagsResource.UpdateRequest)
    (dreq : SubscriptionTagsResource.DeleteRequest) :
  let created := run (SubscriptionTagsResource.Create fw r creq) in
  let read := run (SubscriptionTagsResource.Read fw r rreq) in
  let updated := run (SubscriptionTagsResource.Update fw r ureq) in
  let deleted := run (SubscriptionTagsResource.Delete r dreq) in
  (Data created = None <-> HasError (RespDiagnostics created) = true)
  /\ (Data read = None <-> HasError (RespDiagnostics read) = true)
  /\ (Data updated = None <-> HasError (RespDiagnostics updated) = true)
  /\ Data deleted = None.
Proof.
  intros created read updated deleted. subst created read updated deleted.
  split; [| split; [| split]].
  - unfold SubscriptionTagsResource.Create. handler.
    outcomes; split; intros H; try discriminate; try reflexivity; diagnosed.
  - unfold SubscriptionTagsResource.Read. handler.
    outcomes; split; intros H; try discriminate; try reflexivity; diagnosed.
  - unfold SubscriptionTagsResource.Update. handler.
    outcomes; split; intros H; try discriminate; try reflexivity; diagnosed.
  - unfold SubscriptionTagsResource.Delete. handler.
    outcomes; reflexivity.
Qed.

(** The handlers that write call Azure in a fixed order and at most once
    per service: the tag write first, carrying the decoded tags (the empty
    mapping in [Delete]) at the scope of the subscription, and the
    inheritance call only after it.  [Create] never disables, [Delete]
    never enables, and none of them queries. *)
Theorem writes_before_inheritance
    (fw : SubscriptionTagsResource.Framework)
    (r : SubscriptionTagsResource.SubscriptionTagsResource)
    (creq : SubscriptionTagsResource.CreateRequest)
    (ureq : SubscriptionTagsResource.UpdateRequest)
    (dreq : SubscriptionTagsResource.DeleteRequest) :
  let scope :=
    SubscriptionTagsResource.subscriptionScope
      (SubscriptionTagsResource.SubscriptionID r) in
  let write (data : SubscriptionTagsResource.SubscriptionTagsResourceModel) :=
    Call.CreateOrUpdateAtScope scope
      (tagsParameter
         (snd (SubscriptionTagsResource.ElementsAs fw
                 (SubscriptionTagsResource.Tags data)))) in
  let enable (data : SubscriptionTagsResource.SubscriptionTagsResourceModel) :=
    Call.EnableTagInheritance
      (types.ValueBool (SubscriptionTagsResource.PreferContainers data)) in
  let plan := snd (SubscriptionTagsResource.Create_Plan_Get creq) in
  let plan' := snd (SubscriptionTagsResource.Update_Plan_Get ureq) in
  let clear := Call.CreateOrUpdateAtScope scope (tagsParameter ∅) in
  let created := outbound (Calls (run (SubscriptionTagsResource.Create fw r creq))) in
  let updated := outbound (Calls (run (SubscriptionTagsResource.Update fw r ureq))) in
  let deleted := outbound (Calls (run (SubscriptionTagsResource.Delete r dreq))) in
  (created = [] \/ created = [write plan] \/ created = [write plan; enable plan])
  /\ (updated = [] \/ updated = [write plan']
      \/ updated = [write plan'; enable plan']
      \/ updated = [write plan'; Call.DisableTagInheritance])
  /\ (deleted = [] \/ deleted = [clear] \/ deleted = [Call.DisableTagInheritance]
      \/ deleted = [clear; Call.DisableTagInheritance]).
Proof.
  intros scope write enable plan plan' clear created updated deleted.
  subst scope write enable plan plan' clear created updated deleted.
  unfold tagsParameter.
  split; [| split].
  - unfold SubscriptionTagsResource.Create. handler. outcomes; cbn; auto.
  - unfold SubscriptionTagsResource.Update. handler. outcomes; cbn; auto.
  - unfold SubscriptionTagsResource.Delete. handler. outcomes; cbn; auto 6.
Qed.

(** [Read] refreshes the tags and the two inheritance attributes only: the
    state it records keeps [ondelete_remove_tags] and
    [ondelete_remove_inherit_tags] as the prior state had them. *)
Theorem Read_keeps_delete_flags
    (fw : SubscriptionTagsResource.Framework)
    (r : SubscriptionTagsResource.SubscriptionTagsResource)
    (req : SubscriptionTagsResource.ReadRequest)
    (st : SubscriptionTagsResource.SubscriptionTagsResourceModel) :
  Data (run (SubscriptionTagsResource.Read fw r req)) = Some st ->
  SubscriptionTagsResource.RemoveTags st
    = SubscriptionTagsResource.RemoveTags
        (snd (SubscriptionTagsResource.Read_State_Get req))
  /\ SubscriptionTagsResource.RemoteInheritTags st
     = SubscriptionTagsResource.RemoteInheritTags
         (snd (SubscriptionTagsResource.Read_State_Get req)).
Proof.
  unfold SubscriptionTagsResource.Read. handler.
  outcomes; intros Hst; try discriminate; injection Hst as <-; split; reflexivity.
Qed.

Lemma Read_keeps_delete_flags_witness :
  SubscriptionTagsResource.RemoveTags
    (refreshed Sample.framework
       (SubscriptionTagsResource.mkReadRequest ([], Sample.declared true false true))
       Sample.azureTags Sample.configured)
  = types.BoolValue false
  /\ SubscriptionTagsResource.RemoteInheritTags
       (refreshed Sample.framework
          (SubscriptionTagsResource.mkReadRequest ([], Sample.declared true false true))
          Sample.azureTags Sample.configured)
     = types.BoolValue true.
Proof.
  exact (Read_keeps_delete_flags Sample.framework (Sample.resource Sample.configured)
           (SubscriptionTagsResource.mkReadRequest ([], Sample.declared true false true))
           _ eq_refl).
Defined.

(** [Create] with [inherit_tags] other than true makes no call to the
    settings client, so it never switches inheritance off, and it records
    the plan as it was declared. *)
Theorem Create_without_inheritance
    (fw : SubscriptionTagsResource.Framework)
    (r : SubscriptionTagsResource.SubscriptionTagsResource)
    (req : SubscriptionTagsResource.CreateRequest) :
  let data := snd (SubscriptionTagsResource.Create_Plan_Get req) in
  let out := run (SubscriptionTagsResource.Create fw r req) in
  HasError (fst (SubscriptionTagsResource.Create_Plan_Get req)) = false ->
  tagsApplied fw r data ->
  types.ValueBool (SubscriptionTagsResource.InheritTags data) = false ->
  Data out = Some data
  /\ count isEnable (Calls out) = 0
  /\ count isDisable (Calls out) = 0
  /\ count isGetInheritance (Calls out) = 0.
Proof.
  intros data out Hplan [Helems Hwrite] Hinherit. subst data out.
  unfold SubscriptionTagsResource.Create. handler.
  repeat (first [ rewrite Hplan | rewrite Helems | rewrite Hwrite
                | rewrite Hinherit | rewrite HasError_app ]; reduce).
  repeat split; reflexivity.
Qed.

Lemma Create_without_inheritance_witness :
  let out :=
    run (SubscriptionTagsResource.Create Sample.framework
           (Sample.resource Sample.configured)
           (SubscriptionTagsResource.mkCreateRequest
              ([], Sample.declared false true false))) in
  Data out = Some (Sample.declared false true false)
  /\ count isEnable (Calls out) = 0
  /\ count isDisable (Calls out) = 0
  /\ count isGetInheritance (Calls out) = 0.
Proof.
  apply (Create_without_inheritance Sample.framework (Sample.resource Sample.configured)
           (SubscriptionTagsResource.mkCreateRequest
              ([], Sample.declared false true false)));
    try reflexivity.
  split; reflexivity.
Defined.

(** An [Update] whose plan wants inheritance on calls
    [EnableTagInheritance] once, with the declared [prefer_containers] (false
    when that is null or unknown), whether or not inheritance was on
    before, and never calls disable. *)
Theorem Update_enables_again
    (fw : SubscriptionTagsResource.Framework)
    (r : SubscriptionTagsResource.SubscriptionTagsResource)
    (req : SubscriptionTagsResource.UpdateRequest) :
  let data := snd (SubscriptionTagsResource.Update_Plan_Get req) in
  let calls := Calls (run (SubscriptionTagsResource.Update fw r req)) in
  HasError (fst (SubscriptionTagsResource.Update_Plan_Get req)) = false ->
  HasError (fst (SubscriptionTagsResource.Update_State_Get req)) = false ->
  tagsApplied fw r data ->
  types.ValueBool (SubscriptionTagsResource.InheritTags data) = true ->
  List.filter isEnable calls
    = [Call.EnableTagInheritance
         (types.ValueBool (SubscriptionTagsResource.PreferContainers data))]
  /\ count isDisable calls = 0.
Proof.
  intros data calls Hplan Hstate [Helems Hwrite] Hinherit. subst data calls.
  unfold SubscriptionTagsResource.Update. handler.
  repeat (first [ rewrite Hplan | rewrite Hstate | rewrite Helems | rewrite Hwrite
                | rewrite Hinherit | rewrite HasError_app ]; reduce).
  outcomes; split; reflexivity.
Qed.

Lemma Update_enables_again_witness :
  let calls :=
    Calls (run (SubscriptionTagsResource.Update Sample.framework
                  (Sample.resource Sample.configured)
                  (SubscriptionTagsResource.mkUpdateRequest
                     ([], Sample.declared true true false)
                     ([], Sample.declared true true false)))) in
  List.filter isEnable calls = [Call.EnableTagInheritance true]
  /\ count isDisable calls = 0.
Proof.
  apply (Update_enables_again Sample.framework (Sample.resource Sample.configured)
           (SubscriptionTagsResource.mkUpdateRequest
              ([], Sample.declared true true false)
              ([], Sample.declared true true false)));
    try reflexivity.
  split; reflexivity.
Defined.

(** An [Update] whose plan has inheritance off records the plan unchanged
    when it was off before, and the plan with [inherit_tags] set to false
    when it was on and the disable call succeeded; [prefer_containers] is
    the declared one in both cases. *)
Theorem Update_off_state
    (fw : SubscriptionTagsResource.Framework)
    (r : SubscriptionTagsResource.SubscriptionTagsResource)
    (req : SubscriptionTagsResource.UpdateRequest) :
  let data := snd (SubscriptionTagsResource.Update_Plan_Get req) in
  let oldData := snd (SubscriptionTagsResource.Update_State_Get req) in
  let out := run (SubscriptionTagsResource.Update fw r req) in
  HasError (fst (SubscriptionTagsResource.Update_Plan_Get req)) = false ->
  HasError (fst (SubscriptionTagsResource.Update_State_Get req)) = false ->
  tagsApplied fw r data ->
  types.ValueBool (SubscriptionTagsResource.InheritTags data) = false ->
  (types.ValueBool (SubscriptionTagsResource.InheritTags oldData) = false ->
   Data out = Some data)
  /\ (types.ValueBool (SubscriptionTagsResource.InheritTags oldData) = true ->
      forall answer,
        subscriptions.DisableTagInheritance
          (SubscriptionTagsResource.SettingsClient r) = Ok answer ->
        Data out
        = Some (SubscriptionTagsResource.setInheritTags data (types.BoolValue false)))
  /\ (types.ValueBool (SubscriptionTagsResource.InheritTags oldData) = true ->
      forall err,
        subscriptions.DisableTagInheritance
          (SubscriptionTagsResource.SettingsClient r) = Err err ->
        Data out = None
        /\ In (NewErrorDiagnostic "Error disabling tag inheritance" err)
             (RespDiagnostics out)).
Proof.
  intros data oldData out Hplan Hstate [Helems Hwrite] Hinherit.
  subst data oldData out.
  unfold SubscriptionTagsResource.Update. handler.
  repeat (first [ rewrite Hplan | rewrite Hstate | rewrite Helems | rewrite Hwrite
                | rewrite Hinherit | rewrite HasError_app ]; reduce).
  split; [| split]; intros Hold; rewrite Hold; reduce.
  - reflexivity.
  - intros answer Hanswer. now rewrite Hanswer.
  - intros err Herr. rewrite Herr. reduce. split; [reflexivity |].
    apply In_Append. right. now left.
Qed.

Lemma Update_off_state_witness :
  let req :=
    SubscriptionTagsResource.mkUpdateRequest
      ([], Sample.declared false true false) ([], Sample.declared true true false) in
  Data (run (SubscriptionTagsResource.Update Sample.framework
               (Sample.resource Sample.configured) req))
  = Some (Sample.declared false true false).
Proof.
  exact (proj1 (proj2
    (Update_off_state Sample.framework (Sample.resource Sample.configured)
       (SubscriptionTagsResource.mkUpdateRequest
          ([], Sample.declared false true false) ([], Sample.declared true true false))
       eq_refl eq_refl (conj eq_refl eq_refl) eq_refl))
    eq_refl Sample.configured eq_refl).
Defined.

(** When Azure refuses the tag write, the handler stops there: the write
    is its only outbound call, inheritance is left alone whatever the
    plan or the state asks for, no state is recorded, and the diagnostic
    carries Azure's error wrapped with the subscription. *)
Theorem tag_write_failure_stops
    (fw : SubscriptionTagsResource.Framework)
    (r : SubscriptionTagsResource.SubscriptionTagsResource)
    (creq : SubscriptionTagsResource.CreateRequest)
    (ureq : SubscriptionTagsResource.UpdateRequest)
    (dreq : SubscriptionTagsResource.DeleteRequest)
    (err : error) :
  let scope :=
    SubscriptionTagsResource.subscriptionScope
      (SubscriptionTagsResource.SubscriptionID r) in
  let wrapped :=
    Sprintf2 "failed to set tags for subscription %q: %+v"
      (Lit (SubscriptionTagsResource.SubscriptionID r)) err in
  let refused (data : SubscriptionTagsResource.SubscriptionTagsResourceModel) :=
    HasError (fst (SubscriptionTagsResource.ElementsAs fw
                     (SubscriptionTagsResource.Tags data))) = false
    /\ SubscriptionTagsResource.CreateOrUpdateAtScope
         (SubscriptionTagsResource.TagsClient_ r) scope
         (tagsParameter
            (snd (SubscriptionTagsResource.ElementsAs fw
                    (SubscriptionTagsResource.Tags data)))) = Some err in
  let created := run (SubscriptionTagsResource.Create fw r creq) in
  let updated := run (SubscriptionTagsResource.Update fw r ureq) in
  let deleted := run (SubscriptionTagsResource.Delete r dreq) in
  (HasError (fst (SubscriptionTagsResource.Create_Plan_Get creq)) = false ->
   refused (snd (SubscriptionTagsResource.Create_Plan_Get creq)) ->
   Data created = None
   /\ count isTagWrite (Calls created) = 1
   /\ count isEnable (Calls created) = 0
   /\ In (NewErrorDiagnostic "Error applying tags to subscription" wrapped)
        (RespDiagnostics created))
  /\ (HasError (fst (SubscriptionTagsResource.Update_Plan_Get ureq)) = false ->
      HasError (fst (SubscriptionTagsResource.Update_State_Get ureq)) = false ->
      refused (snd (SubscriptionTagsResource.Update_Plan_Get ureq)) ->
      Data updated = None
      /\ count isTagWrite (Calls updated) = 1
      /\ count isEnable (Calls updated) = 0
      /\ count isDisable (Calls updated) = 0
      /\ In (NewErrorDiagnostic "Error updating subscription tags" wrapped)
           (RespDiagnostics updated))
  /\ (HasError (fst (SubscriptionTagsResource.Delete_State_Get dreq)) = false ->
      types.ValueBool
        (SubscriptionTagsResource.RemoveTags
           (snd (SubscriptionTagsResource.Delete_State_Get dreq))) = true ->
      SubscriptionTagsResource.CreateOrUpdateAtScope
        (SubscriptionTagsResource.TagsClient_ r) scope (tagsParameter ∅) = Some err ->
      count isTagWrite (Calls deleted) = 1
      /\ count isDisable (Calls deleted) = 0
      /\ In (NewErrorDiagnostic "Error removing subscription tags" wrapped)
           (RespDiagnostics deleted)).
Proof.
  intros scope wrapped refused created updated deleted.
  subst scope wrapped refused created updated deleted. unfold tagsParameter.
  split; [| split].
  - intros Hplan [Helems Hwrite].
    unfold SubscriptionTagsResource.Create. handler.
    repeat (first [ rewrite Hplan | rewrite Helems | rewrite Hwrite
                  | rewrite HasError_app ]; reduce).
    repeat split. apply In_Append. right. now left.
  - intros Hplan Hstate [Helems Hwrite].
    unfold SubscriptionTagsResource.Update. handler.
    repeat (first [ rewrite Hplan | rewrite Hstate | rewrite Helems | rewrite Hwrite
                  | rewrite HasError_app ]; reduce).
    repeat split. apply In_Append. right. now left.
  - intros Hstate Hremove Hwrite.
    unfold SubscriptionTagsResource.Delete. handler.
    repeat (first [ rewrite Hstate | rewrite Hremove | rewrite Hwrite ]; reduce).
    repeat split. apply In_Append. right. now left.
Qed.

(** When the tag write succeeded and [EnableTagInheritance] fails, the
    tags stay written: [Create] and [Update] made both calls, undo
    nothing, record no state and report the settings client's error as it
    came. *)
Theorem inheritance_failure_keeps_tags
    (fw : SubscriptionTagsResource.Framework)
    (r : SubscriptionTagsResource.SubscriptionTagsResource)
    (creq : SubscriptionTagsResource.CreateRequest)
    (ureq : SubscriptionTagsResource.UpdateRequest)
    (err : error) :
  let data := snd (SubscriptionTagsResource.Create_Plan_Get creq) in
  let created := run (SubscriptionTagsResource.Create fw r creq) in
  let updated := run (SubscriptionTagsResource.Update fw r ureq) in
  let calls :=
    [Call.CreateOrUpdateAtScope
       (SubscriptionTagsResource.subscriptionScope
          (SubscriptionTagsResource.SubscriptionID r))
       (tagsParameter
          (snd (SubscriptionTagsResource.ElementsAs fw
                  (SubscriptionTagsResource.Tags data))));
     Call.EnableTagInheritance
       (types.ValueBool (SubscriptionTagsResource.PreferContainers data))] in
  SubscriptionTagsResource.Update_Plan_Get ureq
    = SubscriptionTagsResource.Create_Plan_Get creq ->
  HasError (fst (SubscriptionTagsResource.Create_Plan_Get creq)) = false ->
  HasError (fst (SubscriptionTagsResource.Update_State_Get ureq)) = false ->
  tagsApplied fw r data ->
  types.ValueBool (SubscriptionTagsResource.InheritTags data) = true ->
  subscriptions.EnableTagInheritance (SubscriptionTagsResource.SettingsClient r)
    (types.ValueBool (SubscriptionTagsResource.PreferContainers data)) = Err err ->
  outbound (Calls created) = calls
  /\ outbound (Calls updated) = calls
  /\ Data created = None
  /\ Data updated = None
  /\ In (NewErrorDiagnostic "Error configuring tag inheritance" err)
       (RespDiagnostics created)
  /\ In (NewErrorDiagnostic "Error updating tag inheritance settings" err)
       (RespDiagnostics updated).
Proof.
  intros data created updated calls Hsame Hplan Hstate [Helems Hwrite] Hinherit Hfail.
  subst data created updated calls. unfold tagsParameter.
  unfold SubscriptionTagsResource.Create, SubscriptionTagsResource.Update.
  rewrite Hsame. handler.
  repeat (first [ rewrite Hplan | rewrite Hstate | rewrite Helems | rewrite Hwrite
                | rewrite Hinherit | rewrite Hfail | rewrite HasError_app ]; reduce).
  repeat split; apply In_Append; right; now left.
Qed.

Lemma inheritance_failure_keeps_tags_witness :
  Data (run (SubscriptionTagsResource.Create Sample.framework
               (SubscriptionTagsResource.mkResource
                  (Sample.unreachable Sample.timeout) Sample.tagsClient
                  Sample.subscription)
               (SubscriptionTagsResource.mkCreateRequest
                  ([], Sample.declared true true false)))) = None.
Proof.
  exact (proj1 (proj2 (proj2
    (inheritance_failure_keeps_tags Sample.framework
       (SubscriptionTagsResource.mkResource
          (Sample.unreachable Sample.timeout) Sample.tagsClient Sample.subscription)
       (SubscriptionTagsResource.mkCreateRequest ([], Sample.declared true true false))
       (SubscriptionTagsResource.mkUpdateRequest
          ([], Sample.declared true true false) ([], Sample.declared true true false))
       Sample.timeout eq_refl eq_refl eq_refl (conj eq_refl eq_refl) eq_refl eq_refl)))).
Defined.

Lemma tag_write_failure_stops_witness :
  let created :=
    run (SubscriptionTagsResource.Create Sample.framework
           (SubscriptionTagsResource.mkResource (Sample.client Sample.configured)
              Sample.readOnlyTags Sample.subscription)
           (SubscriptionTagsResource.mkCreateRequest
              ([], Sample.declared true true false))) in
  Data created = None
  /\ count isTagWrite (Calls created) = 1
  /\ count isEnable (Calls created) = 0
  /\ In (NewErrorDiagnostic "Error applying tags to subscription"
           (Sprintf2 "failed to set tags for subscription %q: %+v"
              (Lit Sample.subscription) (Lit "AuthorizationFailed")))
       (RespDiagnostics created).
Proof.
  exact (proj1
    (tag_write_failure_stops Sample.framework
       (SubscriptionTagsResource.mkResource (Sample.client Sample.configured)
          Sample.readOnlyTags Sample.subscription)
       (SubscriptionTagsResource.mkCreateRequest ([], Sample.declared true true false))
       (SubscriptionTagsResource.mkUpdateRequest
          ([], Sample.declared true true false) ([], Sample.declared true true false))
       (SubscriptionTagsResource.mkDeleteRequest ([], Sample.declared true true false))
       (Lit "AuthorizationFailed"))
    eq_refl (conj eq_refl eq_refl)).
Defined.

(** *** Setting the resource up *)

(** [Configure] of the resource on the three kinds of provider data.
    Without provider data it does nothing; on data of another type it
    reports one error and assigns nothing; on the provider's context it
    either assigns the three clients and the subscription and reports
    nothing, or reports the failed constructor and leaves the tags client
    and the subscription as they were. *)
Theorem resource_Configure_outcome
    (sdk : ResourceSetup.SDK) (r : ResourceSetup.Receiver)
    (req : ResourceSetup.ConfigureRequest) :
  let out := runFrom r (ResourceSetup.Configure sdk req) in
  let r' := ResourceSetup.configured sdk r req in
  match ResourceSetup.ProviderData_ req with
  | ResourceSetup.NoProviderData => r' = r /\ RespDiagnostics out = []
  | ResourceSetup.OtherProviderData =>
      r' = r
      /\ RespDiagnostics out
         = [NewErrorDiagnostic "unable to obtain provider data"
              (Lit "provider data not available")]
  | ResourceSetup.Context data =>
      (RespDiagnostics out = []
       /\ is_Some (ResourceSetup.SettingsClient r')
       /\ is_Some (ResourceSetup.SubscriptionsClient r')
       /\ is_Some (ResourceSetup.TagsClient r')
       /\ is_Some (ResourceSetup.ready r')
       /\ ResourceSetup.SubscriptionID r' = AzurexProvider.ctxSubscriptionID data)
      \/ (HasError (RespDiagnostics out) = true
          /\ length (RespDiagnostics out) = 1
          /\ ResourceSetup.TagsClient r' = ResourceSetup.TagsClient r
          /\ ResourceSetup.SubscriptionID r' = ResourceSetup.SubscriptionID r)
  end.
Proof.
  intros out r'. subst out r'.
  destruct req as [[| data |]]; setup; cbn [ResourceSetup.ProviderData_].
  - split; reflexivity.
  - constructors sdk.
    1: left; cbn; repeat split; eauto.
    all: right; repeat split; reflexivity.
  - split; reflexivity.
Qed.

(** The settings client the resource ends up with is the one [arm.NewClient]
    builds for the name [armcostmanagement.SettingsClient], the version
    [v2.0.0] and the provider's credential: the subscription of the
    provider context takes no part in it. *)
Theorem settings_client_ignores_subscription
    (sdk : ResourceSetup.SDK) (r : ResourceSetup.Receiver)
    (data : AzurexProvider.AzurexContext) :
  ResourceSetup.SettingsClient
    (ResourceSetup.configured sdk r
       (ResourceSetup.mkConfigureRequest (ResourceSetup.Context data)))
  = match ResourceSetup.arm_NewClient sdk "armcostmanagement.SettingsClient" "v2.0.0"
            (AzurexProvider.IdentityCreds data) with
    | Ok cl => Some (subscriptions.mkSettingsClient cl)
    | Err _ => ResourceSetup.SettingsClient r
    end.
Proof.
  setup. cbn [ResourceSetup.ProviderData_].
  change (subscriptions.moduleName +:+ ".SettingsClient")
    with "armcostmanagement.SettingsClient".
  change subscriptions.moduleVersion with "v2.0.0".
  constructors sdk; reflexivity.
Qed.

(** From the provider block to the wire: once the provider has configured
    and the resource has been set up from the data it handed on, the
    resource works on the subscription of [ARM_SUBSCRIPTION_ID] when that
    is set and on the declared [subscription_id] otherwise, and [Read]
    starts by querying the tags at the scope of that subscription. *)
Theorem configured_resource_scope
    (h : AzurexProvider.Host) (preq : AzurexProvider.ConfigureRequest)
    (sdk : ResourceSetup.SDK)
    (d : AzurexProvider.ConfigureData)
    (res : SubscriptionTagsResource.SubscriptionTagsResource) :
  let subscription :=
    if nonempty (AzurexProvider.Getenv h "ARM_SUBSCRIPTION_ID")
    then AzurexProvider.Getenv h "ARM_SUBSCRIPTION_ID"
    else types.ValueString
           (AzurexProvider.SubscriptionID (snd (AzurexProvider.Config_Get preq))) in
  Data (run (AzurexProvider.Configure h preq)) = Some d ->
  ResourceSetup.ready
    (ResourceSetup.configured sdk ResourceSetup.NewSubscriptionTagsResource
       (ResourceSetup.mkConfigureRequest
          (ResourceSetup.Context (AzurexProvider.ResourceData d)))) = Some res ->
  SubscriptionTagsResource.SubscriptionID res = subscription
  /\ forall fw req,
       HasError (fst (SubscriptionTagsResource.Read_State_Get req)) = false ->
       hd_error (Calls (run (SubscriptionTagsResource.Read fw res req)))
       = Some (Call.GetAtScope ("/subscriptions/" +:+ subscription)).
Proof.
  intros subscription Hprovider Hready.
  assert (Hctx : AzurexProvider.ctxSubscriptionID (AzurexProvider.ResourceData d)
                 = subscription).
  { subst subscription. revert Hprovider. clear. configure.
    outcomes; intros Hdata; try discriminate; injection Hdata as <-; reflexivity. }
  assert (Hres : SubscriptionTagsResource.SubscriptionID res
                 = AzurexProvider.ctxSubscriptionID (AzurexProvider.ResourceData d)).
  { revert Hready. clear. unfold ResourceSetup.ready. setup.
    cbn [ResourceSetup.ProviderData_]. constructors sdk; cbn; intros Hready;
      try discriminate.
    now injection Hready as <-. }
  split; [congruence |].
  intros fw req Hstate.
  unfold SubscriptionTagsResource.Read, SubscriptionTagsResource.subscriptionScope.
  rewrite Hres, Hctx. handler. rewrite Hstate. reduce.
  outcomes; reflexivity.
Qed.

Lemma configured_resource_scope_witness :
  SubscriptionTagsResource.SubscriptionID (Sample.resource Sample.configured)
  = Sample.subscription
  /\ forall fw req,
       HasError (fst (SubscriptionTagsResource.Read_State_Get req)) = false ->
       hd_error (Calls (run (SubscriptionTagsResource.Read fw
                               (Sample.resource Sample.configured) req)))
       = Some (Call.GetAtScope ("/subscriptions/" +:+ Sample.subscription)).
Proof.
  exact (configured_resource_scope
           (Sample.host [("ARM_CLIENT_SECRET", "env-secret")] Sample.accepted)
           Sample.providerConfig Sample.sdk _ (Sample.resource Sample.configured)
           eq_refl eq_refl).
Defined.

(** *** The provider's Configure, beyond the claims *)

(** [Configure] decodes the provider block twice and appends what the
    decoding reported both times, but the second time adds nothing, since
    the collection already holds every one of them: a [Configure] that
    completes carries the diagnostics of the decoding, warnings included,
    each of them once, and nothing else. *)
Theorem Configure_reports_decoding_once
    (h : AzurexProvider.Host) (req : AzurexProvider.ConfigureRequest)
    (d : AzurexProvider.ConfigureData) :
  let reported := RespDiagnostics (run (AzurexProvider.Configure h req)) in
  Data (run (AzurexProvider.Configure h req)) = Some d ->
  reported = Diagnostics_Append [] (fst (AzurexProvider.Config_Get req))
  /\ NoDup reported
  /\ forall x, In x reported <-> In x (fst (AzurexProvider.Config_Get req)).
Proof.
  intros reported Hdata.
  assert (Hreported :
            reported = Diagnostics_Append [] (fst (AzurexProvider.Config_Get req))).
  { subst reported. revert Hdata. configure.
    outcomes; intros Hdata; try discriminate;
      apply Append_contained; intros x Hx; apply In_Append; now right. }
  rewrite Hreported. split; [reflexivity | split].
  - apply NoDup_Append. constructor.
  - intros x. rewrite In_Append. cbn. tauto.
Qed.

Lemma Configure_reports_decoding_once_witness :
  let reported :=
    RespDiagnostics
      (run (AzurexProvider.Configure
              (Sample.host [("ARM_CLIENT_SECRET", "env-secret")] Sample.accepted)
              (AzurexProvider.mkConfigureRequest
                 ([Sample.deprecation],
                  snd (AzurexProvider.Config_Get Sample.providerConfig))))) in
  reported = Diagnostics_Append [] [Sample.deprecation]
  /\ NoDup reported
  /\ forall x, In x reported <-> In x [Sample.deprecation].
Proof.
  exact (Configure_reports_decoding_once
           (Sample.host [("ARM_CLIENT_SECRET", "env-secret")] Sample.accepted)
           (AzurexProvider.mkConfigureRequest
              ([Sample.deprecation], snd (AzurexProvider.Config_Get Sample.providerConfig)))
           _ eq_refl).
Defined.

(** [Configure] reads at most one file, and only for the authentication
    type it picked: none when [ARM_CLIENT_SECRET] is set, the certificate
    file when that is the first variable set, the token file when it is the
    only one. *)
Theorem Configure_file_reads
    (h : AzurexProvider.Host) (req : AzurexProvider.ConfigureRequest) :
  let secret := AzurexProvider.Getenv h "ARM_CLIENT_SECRET" in
  let certificate := AzurexProvider.Getenv h "ARM_CLIENT_CERTIFICATE_FILE" in
  let token := AzurexProvider.Getenv h "AZURE_FEDERATED_TOKEN_FILE" in
  let reads := List.filter isReadFile (Calls (run (AzurexProvider.Configure h req))) in
  reads = []
  \/ (secret = "" /\ certificate <> "" /\ reads = [Call.os_ReadFile certificate])
  \/ (secret = "" /\ certificate = "" /\ token <> ""
      /\ reads = [Call.os_ReadFile token]).
Proof.
  intros secret certificate token reads. subst secret certificate token reads.
  configure.
  outcomes;
    repeat match goal with
      | H : nonempty _ = true |- _ => apply nonempty_true in H
      | H : nonempty _ = false |- _ => apply nonempty_false in H
      end;
    cbn; auto 10.
Qed.

(** The provider context of a completed [Configure]: data sources and
    resources get the same context; its [Graph] and [Management] wrap the
    authorizers built for the Microsoft Graph and the Resource Manager API
    of the global environment, in that assignment, from one set of
    credentials; its [MicrosoftGraph] and [ResourceManager] stay nil. *)
Theorem Configure_context
    (h : AzurexProvider.Host) (req : AzurexProvider.ConfigureRequest)
    (d : AzurexProvider.ConfigureData) :
  Data (run (AzurexProvider.Configure h req)) = Some d ->
  AzurexProvider.DataSourceData d = AzurexProvider.ResourceData d
  /\ AzurexProvider.MicrosoftGraph (AzurexProvider.ResourceData d) = None
  /\ AzurexProvider.ResourceManager (AzurexProvider.ResourceData d) = None
  /\ exists env credentials graph management,
       AzurexProvider.FromName h "global" = Ok env
       /\ AzurexProvider.NewAuthorizerFromCredentials h credentials
            (environments.MicrosoftGraph env) = Ok graph
       /\ AzurexProvider.NewAuthorizerFromCredentials h credentials
            (environments.ResourceManager env) = Ok management
       /\ AzurexProvider.Graph (AzurexProvider.ResourceData d)
          = Some (autorest.AutorestAuthorizer graph)
       /\ AzurexProvider.Management (AzurexProvider.ResourceData d)
          = Some (autorest.AutorestAuthorizer management).
Proof.
  configure.
  outcomes; intros Hdata; try discriminate; injection Hdata as <-;
    (split; [reflexivity |]); (split; [reflexivity |]); (split; [reflexivity |]);
    do 4 eexists; repeat split; eassumption.
Qed.

Lemma Configure_context_witness :
  let ctx :=
    AzurexProvider.mkContext Sample.subscription
      (Some (autorest.AutorestAuthorizer (auth.mkAuthorizer 0)))
      (Some (autorest.AutorestAuthorizer (auth.mkAuthorizer 0)))
      None None
      (Some (azidentity.ClientSecretCredential "cfg-tenant" "" "env-secret")) in
  let h := Sample.host [("ARM_CLIENT_SECRET", "env-secret")] Sample.accepted in
  AzurexProvider.MicrosoftGraph ctx = None
  /\ AzurexProvider.ResourceManager ctx = None
  /\ exists env credentials graph management,
       AzurexProvider.FromName h "global" = Ok env
       /\ AzurexProvider.NewAuthorizerFromCredentials h credentials
            (environments.MicrosoftGraph env) = Ok graph
       /\ AzurexProvider.NewAuthorizerFromCredentials h credentials
            (environments.ResourceManager env) = Ok management
       /\ AzurexProvider.Graph ctx = Some (autorest.AutorestAuthorizer graph)
       /\ AzurexProvider.Management ctx
          = Some (autorest.AutorestAuthorizer management).
Proof.
  exact (proj2
    (Configure_context
       (Sample.host [("ARM_CLIENT_SECRET", "env-secret")] Sample.accepted)
       Sample.providerConfig _ eq_refl)).
Defined.

(** Every call [Configure] makes to the authorizer constructor of the
    library is for the Microsoft Graph or the Resource Manager API of the
    global environment, with credentials that carry the tenant in force,
    the client ID of [ARM_CLIENT_ID] and the secret of [ARM_CLIENT_SECRET],
    and that keep client-secret authentication switched on whichever type
    was picked; certificate authentication is switched on exactly when the
    certificate type was picked, and OIDC exactly when the token type
    was. *)
Theorem authorizer_credentials
    (h : AzurexProvider.Host) (req : AzurexProvider.ConfigureRequest)
    (c : auth.Credentials) (api : environments.Api) :
  let secret := AzurexProvider.Getenv h "ARM_CLIENT_SECRET" in
  let certificate := AzurexProvider.Getenv h "ARM_CLIENT_CERTIFICATE_FILE" in
  let token := AzurexProvider.Getenv h "AZURE_FEDERATED_TOKEN_FILE" in
  In (Call.NewAuthorizerFromCredentials c api)
     (Calls (run (AzurexProvider.Configure h req))) ->
  exists env,
    AzurexProvider.FromName h "global" = Ok env
    /\ (api = environments.MicrosoftGraph env \/ api = environments.ResourceManager env)
    /\ auth.Environment c = env
    /\ auth.TenantID c = effectiveTenant h req
    /\ auth.ClientID c = AzurexProvider.Getenv h "ARM_CLIENT_ID"
    /\ auth.ClientSecret c = secret
    /\ auth.EnableAuthenticatingUsingClientSecret c = true
    /\ auth.EnableAuthenticatingUsingClientCertificate c
       = negb (nonempty secret) && nonempty certificate
    /\ auth.EnableAuthenticationUsingOIDC c
       = negb (nonempty secret) && negb (nonempty certificate) && nonempty token.
Proof.
  intros secret certificate token. subst secret certificate token.
  unfold effectiveTenant. configure.
  outcomes; cbn [In]; intros Hin;
    repeat match goal with
      | H : _ \/ _ |- _ => destruct H
      | H : False |- _ => destruct H
      | H : _ = Call.NewAuthorizerFromCredentials _ _ |- _ =>
          first [ discriminate H | injection H as <- <- ]
      end;
    eexists; (split; [reflexivity |]);
    repeat match goal with
      | H : nonempty _ = _ |- _ => rewrite H
      end;
    cbn; repeat split; auto;
    repeat match goal with
      | H : nonempty _ = false |- _ => apply nonempty_false in H
      end;
    congruence.
Qed.

Lemma authorizer_credentials_witness :
  let h :=
    Sample.host [("ARM_CLIENT_CERTIFICATE_FILE", "/etc/azurex/client.pem")]
      Sample.accepted in
  let c :=
    auth.mkCredentials
      (environments.mkEnvironment "global"
         (environments.mkApi "MicrosoftGraph")
         (environments.mkApi "ResourceManager"))
      "cfg-tenant" "" true "" true "/etc/azurex/client.pem" false "" in
  let api := environments.mkApi "MicrosoftGraph" in
  exists env,
    AzurexProvider.FromName h "global" = Ok env
    /\ (api = environments.MicrosoftGraph env \/ api = environments.ResourceManager env)
    /\ auth.Environment c = env
    /\ auth.TenantID c = effectiveTenant h Sample.providerConfig
    /\ auth.ClientID c = AzurexProvider.Getenv h "ARM_CLIENT_ID"
    /\ auth.ClientSecret c = AzurexProvider.Getenv h "ARM_CLIENT_SECRET"
    /\ auth.EnableAuthenticatingUsingClientSecret c = true
    /\ auth.EnableAuthenticatingUsingClientCertificate c
       = negb (nonempty (AzurexProvider.Getenv h "ARM_CLIENT_SECRET"))
         && nonempty (AzurexProvider.Getenv h "ARM_CLIENT_CERTIFICATE_FILE")
    /\ auth.EnableAuthenticationUsingOIDC c
       = negb (nonempty (AzurexProvider.Getenv h "ARM_CLIENT_SECRET"))
         && negb (nonempty (AzurexProvider.Getenv h "ARM_CLIENT_CERTIFICATE_FILE"))
         && nonempty (AzurexProvider.Getenv h "AZURE_FEDERATED_TOKEN_FILE").
Proof.
  refine (authorizer_credentials
            (Sample.host [("ARM_CLIENT_CERTIFICATE_FILE", "/etc/azurex/client.pem")]
               Sample.accepted)
            Sample.providerConfig
            (auth.mkCredentials
               (environments.mkEnvironment "global"
                  (environments.mkApi "MicrosoftGraph")
                  (environments.mkApi "ResourceManager"))
               "cfg-tenant" "" true "" true "/etc/azurex/client.pem" false "")
            (environments.mkApi "MicrosoftGraph") _).
  vm_compute. right. right. right. right. left. reflexivity.
Defined.
